(** * A shallow embedding of [disassembler.py]

    The Python module decodes the instruction bytes of a code object
    ([unpack_op]), decodes its line table ([find_linestarts]), collects
    jump targets ([find_labels]), resolves operands ([get_argvalue]) and
    prints a listing, recursing into nested code objects ([disassemble]).

    Python integers are [Z], [bytes] are lists of [Byte.byte], a [dict]
    keyed by integers is a [gmap Z], [None] results are [option] or the
    [PyNone] object, and a raised exception is the left injection of a sum.
    The tables of the standard [dis] module and the builtin [repr] are not
    part of the repository: they are parameters of the development. *)

From Stdlib Require Import ZArith List Lia Sorted.
From Stdlib Require Import Strings.Byte.
From stdpp Require Import base decidable option list gmap strings pretty.

Local Open Scope Z_scope.

(** ** Python values *)

(** The exceptions the module can raise. *)
Inductive exn : Type :=
| IndexError
| TypeError.

(** The objects that occur as constants, resolved operands and arguments of
    [disassemble]. A code object carries the attributes the module reads;
    a table that may be [None] in the source is an [option]. *)
#[warnings="-register-all"]
Inductive pyobj : Type :=
| PyNone
| PyInt (z : Z)
| PyStr (s : string)
| PyTuple (items : list pyobj)
| PyFunction (name : string)
| PyCode (c : code)
with code : Type :=
| Code (co_code : list byte)
       (co_consts : option (list pyobj))
       (co_names co_varnames co_cellvars co_freevars : option (list string))
       (co_lnotab : list byte)
       (co_firstlineno : Z).

Definition co_code (c : code) : list byte :=
  let 'Code x _ _ _ _ _ _ _ := c in x.
Definition co_consts (c : code) : option (list pyobj) :=
  let 'Code _ x _ _ _ _ _ _ := c in x.
Definition co_names (c : code) : option (list string) :=
  let 'Code _ _ x _ _ _ _ _ := c in x.
Definition co_varnames (c : code) : option (list string) :=
  let 'Code _ _ _ x _ _ _ _ := c in x.
Definition co_cellvars (c : code) : option (list string) :=
  let 'Code _ _ _ _ x _ _ _ := c in x.
Definition co_freevars (c : code) : option (list string) :=
  let 'Code _ _ _ _ _ x _ _ := c in x.
Definition co_lnotab (c : code) : list byte :=
  let 'Code _ _ _ _ _ _ x _ := c in x.
Definition co_firstlineno (c : code) : Z :=
  let 'Code _ _ _ _ _ _ _ x := c in x.

(** [hasattr(v, 'co_code')]: of the objects above only code objects have the
    attribute. *)
Definition has_co_code (v : pyobj) : bool :=
  match v with
  | PyCode _ => true
  | _ => false
  end.

(** The integer a [bytes] element reads as. *)
Definition byte_val (b : byte) : Z := Z.of_N (Byte.to_N b).

(** Subscription [l[i]] of a sequence by an integer: a negative index counts
    from the end, and an index outside the sequence raises [IndexError]. *)
Definition py_index {A : Type} (l : list A) (i : Z) : exn + A :=
  let n := Z.of_nat (length l) in
  let j := if i <? 0 then i + n else i in
  if (0 <=? j) && (j <? n) then
    match l !! Z.to_nat j with
    | Some x => inr x
    | None => inl IndexError
    end
  else inl IndexError.

(** Subscription by a value that may be [None], which is a [TypeError]. *)
Definition py_index_opt {A : Type} (l : list A) (i : option Z) : exn + A :=
  match i with
  | Some k => py_index l k
  | None => inl TypeError
  end.

(** [range(0, stop, 2)]. *)
Definition range_by_2 (stop : nat) : list Z :=
  (fun k : nat => 2 * Z.of_nat k) <$> seq 0 (Nat.div2 (S stop)).

(** Extended slices [s[0::2]] and [s[1::2]]. *)
Fixpoint slice_0_2 {A : Type} (s : list A) : list A :=
  match s with
  | [] => []
  | x :: s' =>
      x :: match s' with
           | [] => []
           | _ :: s'' => slice_0_2 s''
           end
  end.

Definition slice_1_2 {A : Type} (s : list A) : list A :=
  match s with
  | [] => []
  | _ :: s' => slice_0_2 s'
  end.

(** A generator that was run to its end: the values it yielded, in order,
    closed by a normal stop or by the exception that escaped its body. *)
Inductive gen (A : Type) : Type :=
| GStop
| GRaise (e : exn)
| GYield (a : A) (rest : gen A).
Arguments GStop {A}.
Arguments GRaise {A} e.
Arguments GYield {A} a rest.

Fixpoint yielded {A : Type} (g : gen A) : list A :=
  match g with
  | GYield a rest => a :: yielded rest
  | _ => []
  end.

Fixpoint raised {A : Type} (g : gen A) : option exn :=
  match g with
  | GStop => None
  | GRaise e => Some e
  | GYield _ rest => raised rest
  end.

(** ** The [dis] module *)

Record dis_module : Type := DisModule {
  HAVE_ARGUMENT : Z;
  EXTENDED_ARG : Z;
  hasconst : list Z;
  hasname : list Z;
  hasjrel : list Z;
  hasjabs : list Z;
  haslocal : list Z;
  hascompare : list Z;
  hasfree : list Z;
  cmp_op : list string;
  opname : list string
}.

(** One decoded instruction: [(offset, opcode, oparg)]. *)
Definition instr : Type := Z * Z * option Z.

Definition instr_offset (ins : instr) : Z := ins.1.1.
Definition instr_opcode (ins : instr) : Z := ins.1.2.
Definition instr_oparg (ins : instr) : option Z := ins.2.

Section Disassembler.

Variable dis : dis_module.
(** The builtin [repr]. *)
Variable repr : pyobj -> string.

(** ** [unpack_op] *)

(** The body of the loop of [unpack_op] at index [i], entered with the
    accumulator [extended_arg]: the triple it yields and the accumulator it
    leaves for the next iteration. *)
Definition unpack_body (bytecode : list byte) (i : Z) (extended_arg : Z)
  : exn + (instr * Z) :=
  match py_index bytecode i with
  | inl e => inl e
  | inr b0 =>
      let opcode := byte_val b0 in
      if HAVE_ARGUMENT dis <=? opcode then
        match py_index bytecode (i + 1) with
        | inl e => inl e
        | inr b1 =>
            let oparg := Z.lor (byte_val b1) extended_arg in
            let extended_arg' :=
              if opcode =? EXTENDED_ARG dis then Z.shiftl oparg 8 else 0 in
            inr ((i, opcode, Some oparg), extended_arg')
        end
      else
        inr ((i, opcode, None), extended_arg)
  end.

Fixpoint unpack_loop (bytecode : list byte) (indices : list Z)
    (extended_arg : Z) : gen instr :=
  match indices with
  | [] => GStop
  | i :: indices' =>
      match unpack_body bytecode i extended_arg with
      | inl e => GRaise e
      | inr (ins, extended_arg') =>
          GYield ins (unpack_loop bytecode indices' extended_arg')
      end
  end.

Definition unpack_op (bytecode : list byte) : gen instr :=
  unpack_loop bytecode (range_by_2 (length bytecode)) 0.

(** The accumulator as the loop of [unpack_op] carries it: for every
    iteration that completes, the value on entry, the opcode decoded and the
    value left for the next iteration. *)
Fixpoint accumulator_trace (bytecode : list byte) (indices : list Z)
    (extended_arg : Z) : list (Z * Z * Z) :=
  match indices with
  | [] => []
  | i :: indices' =>
      match unpack_body bytecode i extended_arg with
      | inl _ => []
      | inr (ins, extended_arg') =>
          (extended_arg, instr_opcode ins, extended_arg')
            :: accumulator_trace bytecode indices' extended_arg'
      end
  end.

Definition unpack_op_accumulators (bytecode : list byte) : list (Z * Z * Z) :=
  accumulator_trace bytecode (range_by_2 (length bytecode)) 0.

(** ** [find_linestarts] *)

(** One iteration of the loop over the zipped increments: the state is the
    running [byte] offset, the running [line] and [linestart_dict]. *)
Definition linestarts_body (st : Z * Z * gmap Z Z)
    (incr : Byte.byte * Byte.byte) : Z * Z * gmap Z Z :=
  let '(byte, line, linestart_dict) := st in
  let byte_incr := byte_val incr.1 in
  let line_incr := byte_val incr.2 in
  let byte := byte + byte_incr in
  let line_incr :=
    if 0x80 <=? line_incr then line_incr - 0x100 else line_incr in
  let line := line + line_incr in
  (byte, line, <[byte := line]> linestart_dict).

Definition find_linestarts (codeobj : code) : gmap Z Z :=
  let byte_increments := slice_0_2 (co_lnotab codeobj) in
  let line_increments := slice_1_2 (co_lnotab codeobj) in
  let byte := 0 in
  let line := co_firstlineno codeobj in
  let linestart_dict : gmap Z Z := {[ byte := line ]} in
  (foldl linestarts_body (byte, line, linestart_dict)
         (zip byte_increments line_increments)).2.

(** The pairs the loop of [find_linestarts] runs over. *)
Definition lnotab_pairs (codeobj : code) : list (byte * byte) :=
  zip (slice_0_2 (co_lnotab codeobj)) (slice_1_2 (co_lnotab codeobj)).

(** ** [get_argvalue] *)

(** [a + b] on two tuples; an operand that is [None] is a [TypeError]. *)
Definition py_concat {A : Type} (a b : option (list A))
  : exn + option (list A) :=
  match a, b with
  | Some x, Some y => inr (Some (x ++ y))
  | _, _ => inl TypeError
  end.

(** [type(argval) == str or argval == None]. *)
Definition is_str_or_none (argval : pyobj) : bool :=
  match argval with
  | PyStr _ | PyNone => true
  | _ => false
  end.

(** The function object [get_argvalue] itself, as the source passes it to
    [repr]. *)
Definition get_argvalue_object : pyobj := PyFunction "get_argvalue".

Definition get_argvalue (offset : Z) (codeobj : code) (opcode : Z)
    (oparg : option Z) : exn + pyobj :=
  let constants := co_consts codeobj in
  let varnames := co_varnames codeobj in
  let names := co_names codeobj in
  match py_concat (co_cellvars codeobj) (co_freevars codeobj) with
  | inl e => inl e
  | inr cell_names =>
      if bool_decide (opcode ∈ hasconst dis) then
        match constants with
        | Some constants =>
            match py_index_opt constants oparg with
            | inl e => inl e
            | inr argval =>
                if is_str_or_none argval then inr (PyStr (repr argval))
                else inr argval
            end
        | None => inr PyNone
        end
      else if bool_decide (opcode ∈ hasname dis) then
        match names with
        | Some names =>
            match py_index_opt names oparg with
            | inl e => inl e
            | inr name => inr (PyStr name)
            end
        | None => inr PyNone
        end
      else if bool_decide (opcode ∈ hasjrel dis) then
        match oparg with
        | None => inl TypeError
        | Some oparg =>
            let argval := offset + 2 + oparg in
            inr (PyStr ("to " +:+ repr get_argvalue_object))
        end
      else if bool_decide (opcode ∈ haslocal dis) then
        match varnames with
        | Some varnames =>
            match py_index_opt varnames oparg with
            | inl e => inl e
            | inr name => inr (PyStr name)
            end
        | None => inr PyNone
        end
      else if bool_decide (opcode ∈ hascompare dis) then
        match py_index_opt (cmp_op dis) oparg with
        | inl e => inl e
        | inr op => inr (PyStr op)
        end
      else if bool_decide (opcode ∈ hasfree dis) then
        match cell_names with
        | Some cell_names =>
            match py_index_opt cell_names oparg with
            | inl e => inl e
            | inr name => inr (PyStr name)
            end
        | None => inr PyNone
        end
      else inr PyNone
  end.

(** ** [find_labels] *)

(** A label is an integer, or [None] when an absolute-jump opcode below
    [HAVE_ARGUMENT] hands its absent operand on. *)
Fixpoint find_labels_loop (ops : gen instr) (labels : list (option Z))
  : exn + list (option Z) :=
  match ops with
  | GStop => inr labels
  | GRaise e => inl e
  | GYield (offset, opcode, oparg) ops' =>
      if bool_decide (opcode ∈ hasjrel dis) then
        match oparg with
        | None => inl TypeError
        | Some oparg =>
            let label := Some (offset + 2 + oparg) in
            find_labels_loop ops'
              (if bool_decide (label ∈ labels) then labels
               else labels ++ [label])
        end
      else if bool_decide (opcode ∈ hasjabs dis) then
        let label := oparg in
        find_labels_loop ops'
          (if bool_decide (label ∈ labels) then labels else labels ++ [label])
      else find_labels_loop ops' labels
  end.

Definition find_labels (codeobj : code) : exn + list (option Z) :=
  let bytecode := co_code codeobj in
  find_labels_loop (unpack_op bytecode) [].

(** The destination of one instruction, when it is a jump whose destination
    the collector can compute. *)
Definition jump_destination (ins : instr) : option (option Z) :=
  let '(offset, opcode, oparg) := ins in
  if bool_decide (opcode ∈ hasjrel dis) then
    match oparg with
    | Some oparg => Some (Some (offset + 2 + oparg))
    | None => None
    end
  else if bool_decide (opcode ∈ hasjabs dis) then Some oparg
  else None.

(** The destinations of the jumps of a stream, one per jump, in the order
    of the scan. *)
Definition jump_destinations (ops : list instr) : list (option Z) :=
  omap jump_destination ops.

(** ** [disassemble] *)

(** The six arguments of the format string of one listing line, before they
    are laid out as text: [str(line_start or '')], the [">>"] mark,
    [offset], [dis.opname[opcode]], [oparg] and the parenthesised
    [argvalue]. *)
Record dis_text : Type := DisText {
  text_line : option Z;
  text_mark : bool;
  text_offset : Z;
  text_opname : string;
  text_oparg : option Z;
  text_argvalue : option pyobj
}.

(** What [disassemble] prints: an empty line, a listing line, or the header
    that announces a nested code object. *)
Inductive event : Type :=
| Blank
| Text (t : dis_text)
| Header (oc : pyobj).

(** How a call of [disassemble] ends. [OutOfFuel] is the one outcome the
    source does not have: the recursion budget of the model was used up. *)
Inductive outcome : Type :=
| Returned
| Raised (e : exn)
| OutOfFuel.

(** [line_start or '']: [None] and [0] are both falsy. *)
Definition line_or_empty (line_start : option Z) : option Z :=
  match line_start with
  | Some 0 => None
  | _ => line_start
  end.

Definition argvalue_or_empty (argvalue : pyobj) : option pyobj :=
  match argvalue with
  | PyNone => None
  | _ => Some argvalue
  end.

(** The loop over the instructions of one code object: what it prints, and
    either the exception that ended it or the [code_objects] it collected. *)
Fixpoint disassemble_loop (c : code) (linestarts : gmap Z Z)
    (labels : list (option Z)) (ops : gen instr) (code_objects : list pyobj)
  : list event * (exn + list pyobj) :=
  match ops with
  | GStop => ([], inr code_objects)
  | GRaise e => ([], inl e)
  | GYield (offset, opcode, oparg) ops' =>
      match get_argvalue offset c opcode oparg with
      | inl e => ([], inl e)
      | inr argvalue =>
          let code_objects :=
            if has_co_code argvalue then code_objects ++ [argvalue]
            else code_objects in
          let line_start := linestarts !! offset in
          match py_index (opname dis) opcode with
          | inl e => ([], inl e)
          | inr name =>
              let text :=
                {| text_line := line_or_empty line_start;
                   text_mark := bool_decide (Some offset ∈ labels);
                   text_offset := offset;
                   text_opname := name;
                   text_oparg := oparg;
                   text_argvalue := argvalue_or_empty argvalue |} in
              let printed :=
                (if bool_decide (is_Some (line_or_empty line_start))
                    && negb (offset =? 0)
                 then [Blank] else []) ++ [Text text] in
              let '(out, r) :=
                disassemble_loop c linestarts labels ops' code_objects in
              (printed ++ out, r)
          end
      end
  end.

(** The loop over [code_objects], given the recursive call. *)
Fixpoint disassemble_children (call : pyobj -> list event * outcome)
    (code_objects : list pyobj) : list event * outcome :=
  match code_objects with
  | [] => ([], Returned)
  | oc :: rest =>
      let '(out, r) := call oc in
      match r with
      | Returned =>
          let '(out', r') := disassemble_children call rest in
          (Header oc :: out ++ out', r')
      | _ => (Header oc :: out, r)
      end
  end.

(** [fuel] bounds the depth of the recursive calls; the argument check and
    the listing of [c] itself need none. *)
Fixpoint disassemble (fuel : nat) (c : pyobj) : list event * outcome :=
  if negb (has_co_code c) then ([], Raised TypeError)
  else
    match c with
    | PyCode co =>
        let linestarts := find_linestarts co in
        match find_labels co with
        | inl e => ([], Raised e)
        | inr labels =>
            let bytecode := co_code co in
            let '(out, r) :=
              disassemble_loop co linestarts labels (unpack_op bytecode) [] in
            match r with
            | inl e => (out, Raised e)
            | inr code_objects =>
                let call :=
                  match fuel with
                  | O => fun _ => ([], OutOfFuel)
                  | S fuel' => disassemble fuel'
                  end in
                let '(out', r') := disassemble_children call code_objects in
                (out ++ out', r')
            end
        end
    | _ => ([], Raised TypeError)
    end.

(** The recursive call as [disassemble] makes it with a budget of [fuel]. *)
Definition disassemble_call (fuel : nat) : pyobj -> list event * outcome :=
  match fuel with
  | O => fun _ => ([], OutOfFuel)
  | S fuel' => disassemble fuel'
  end.

(** The listing lines among what was printed. *)
Definition texts (out : list event) : list dis_text :=
  omap (fun e => match e with Text t => Some t | _ => None end) out.

Definition is_header (e : event) : bool :=
  match e with
  | Header _ => true
  | _ => false
  end.

(** The code objects among the resolved values of listing lines, in the
    order of the lines. *)
Definition nested_units (lines : list dis_text) : list pyobj :=
  omap (fun t => match text_argvalue t with
                 | Some v => if has_co_code v then Some v else None
                 | None => None
                 end) lines.

End Disassembler.

(** The depth of the nesting of code objects through constant pools: the
    budget [disassemble] needs to reach every nested unit. *)
Fixpoint nesting_depth (v : pyobj) : nat :=
  match v with
  | PyCode c => code_depth c
  | _ => 0%nat
  end
with code_depth (c : code) : nat :=
  match c with
  | Code _ (Some constants) _ _ _ _ _ _ =>
      S (foldr (fun v => Nat.max (nesting_depth v)) 0%nat constants)
  | Code _ None _ _ _ _ _ _ => 1%nat
  end.

(** ** The tables of CPython 3.8

    An instance of the parameters, used to evaluate the functions on
    concrete code objects. *)
Module CPython38.

Definition named_opcodes : list (nat * string) :=
  [ (1, "POP_TOP"); (2, "ROT_TWO"); (3, "ROT_THREE"); (4, "DUP_TOP");
    (5, "DUP_TOP_TWO"); (6, "ROT_FOUR"); (9, "NOP"); (10, "UNARY_POSITIVE");
    (11, "UNARY_NEGATIVE"); (12, "UNARY_NOT"); (15, "UNARY_INVERT");
    (16, "BINARY_MATRIX_MULTIPLY"); (17, "INPLACE_MATRIX_MULTIPLY");
    (19, "BINARY_POWER"); (20, "BINARY_MULTIPLY"); (22, "BINARY_MODULO");
    (23, "BINARY_ADD"); (24, "BINARY_SUBTRACT"); (25, "BINARY_SUBSCR");
    (26, "BINARY_FLOOR_DIVIDE"); (27, "BINARY_TRUE_DIVIDE");
    (28, "INPLACE_FLOOR_DIVIDE"); (29, "INPLACE_TRUE_DIVIDE");
    (50, "GET_AITER"); (51, "GET_ANEXT"); (52, "BEFORE_ASYNC_WITH");
    (53, "BEGIN_FINALLY"); (54, "END_ASYNC_FOR"); (55, "INPLACE_ADD");
    (56, "INPLACE_SUBTRACT"); (57, "INPLACE_MULTIPLY"); (59, "INPLACE_MODULO");
    (60, "STORE_SUBSCR"); (61, "DELETE_SUBSCR"); (62, "BINARY_LSHIFT");
    (63, "BINARY_RSHIFT"); (64, "BINARY_AND"); (65, "BINARY_XOR");
    (66, "BINARY_OR"); (67, "INPLACE_POWER"); (68, "GET_ITER");
    (69, "GET_YIELD_FROM_ITER"); (70, "PRINT_EXPR"); (71, "LOAD_BUILD_CLASS");
    (72, "YIELD_FROM"); (73, "GET_AWAITABLE"); (75, "INPLACE_LSHIFT");
    (76, "INPLACE_RSHIFT"); (77, "INPLACE_AND"); (78, "INPLACE_XOR");
    (79, "INPLACE_OR"); (81, "WITH_CLEANUP_START"); (82, "WITH_CLEANUP_FINISH");
    (83, "RETURN_VALUE"); (84, "IMPORT_STAR"); (85, "SETUP_ANNOTATIONS");
    (86, "YIELD_VALUE"); (87, "POP_BLOCK"); (88, "END_FINALLY");
    (89, "POP_EXCEPT"); (90, "STORE_NAME"); (91, "DELETE_NAME");
    (92, "UNPACK_SEQUENCE"); (93, "FOR_ITER"); (94, "UNPACK_EX");
    (95, "STORE_ATTR"); (96, "DELETE_ATTR"); (97, "STORE_GLOBAL");
    (98, "DELETE_GLOBAL"); (100, "LOAD_CONST"); (101, "LOAD_NAME");
    (102, "BUILD_TUPLE"); (103, "BUILD_LIST"); (104, "BUILD_SET");
    (105, "BUILD_MAP"); (106, "LOAD_ATTR"); (107, "COMPARE_OP");
    (108, "IMPORT_NAME"); (109, "IMPORT_FROM"); (110, "JUMP_FORWARD");
    (111, "JUMP_IF_FALSE_OR_POP"); (112, "JUMP_IF_TRUE_OR_POP");
    (113, "JUMP_ABSOLUTE"); (114, "POP_JUMP_IF_FALSE");
    (115, "POP_JUMP_IF_TRUE"); (116, "LOAD_GLOBAL"); (122, "SETUP_FINALLY");
    (124, "LOAD_FAST"); (125, "STORE_FAST"); (126, "DELETE_FAST");
    (130, "RAISE_VARARGS"); (131, "CALL_FUNCTION"); (132, "MAKE_FUNCTION");
    (133, "BUILD_SLICE"); (135, "LOAD_CLOSURE"); (136, "LOAD_DEREF");
    (137, "STORE_DEREF"); (138, "DELETE_DEREF"); (141, "CALL_FUNCTION_KW");
    (142, "CALL_FUNCTION_EX"); (143, "SETUP_WITH"); (144, "EXTENDED_ARG");
    (145, "LIST_APPEND"); (146, "SET_ADD"); (147, "MAP_ADD");
    (148, "LOAD_CLASSDEREF"); (149, "BUILD_LIST_UNPACK");
    (150, "BUILD_MAP_UNPACK"); (151, "BUILD_MAP_UNPACK_WITH_CALL");
    (152, "BUILD_TUPLE_UNPACK"); (153, "BUILD_SET_UNPACK");
    (154, "SETUP_ASYNC_WITH"); (155, "FORMAT_VALUE");
    (156, "BUILD_CONST_KEY_MAP"); (157, "BUILD_STRING");
    (158, "BUILD_TUPLE_UNPACK_WITH_CALL"); (160, "LOAD_METHOD");
    (161, "CALL_METHOD"); (162, "CALL_FINALLY"); (163, "POP_FINALLY") ]%nat.

(** [opname[op]] is ["<op>"] unless the opcode is defined. *)
Definition opname_of (op : nat) : string :=
  match (list_to_map named_opcodes : gmap nat string) !! op with
  | Some name => name
  | None => "<" +:+ pretty op +:+ ">"
  end.

Definition dis : dis_module :=
  {| HAVE_ARGUMENT := 90;
     EXTENDED_ARG := 144;
     hasconst := [100];
     hasname := [90; 91; 95; 96; 97; 98; 101; 106; 108; 109; 116; 160];
     hasjrel := [93; 110; 122; 143; 154; 162];
     hasjabs := [111; 112; 113; 114; 115];
     haslocal := [124; 125; 126];
     hascompare := [107];
     hasfree := [135; 136; 137; 138; 148];
     cmp_op := ["<"; "<="; "=="; "!="; ">"; ">="; "in"; "not in"; "is";
                "is not"; "exception match"; "BAD"];
     opname := opname_of <$> seq 0 256 |}.

(** A stand-in for the builtin [repr], exact on [None], on integers, on
    strings without quotes, backslashes or unprintable characters, and of
    the shape CPython prints for functions and code objects (whose text
    holds a memory address). *)
Definition repr (v : pyobj) : string :=
  match v with
  | PyNone => "None"
  | PyInt z => pretty z
  | PyStr s => "'" +:+ s +:+ "'"
  | PyTuple _ => "(...)"
  | PyFunction name => "<function " +:+ name +:+ " at 0x7f3a5c0d1e50>"
  | PyCode _ => "<code object at 0x7f3a5c0e2b30>"
  end.

End CPython38.

(** ** [disassemble_pyc] *)

(** The order [a >= b] of two tuples of integers: the first position where
    they differ decides, and a tuple is above its own prefixes. *)
Fixpoint tuple_ge (a b : list Z) : bool :=
  match a, b with
  | _, [] => true
  | [], _ :: _ => false
  | x :: a', y :: b' => if x =? y then tuple_ge a' b' else y <? x
  end.

(** The size of the header of a cache file, chosen from the integers at the
    front of [sys.version_info]. *)
Definition header_size (version_info : list Z) : Z :=
  let header_size := 8 in
  let header_size := if tuple_ge version_info [3; 6] then 12 else header_size in
  let header_size := if tuple_ge version_info [3; 7] then 16 else header_size in
  header_size.

(** [disassemble_pyc] on a file that could be opened and holds [contents].
    [marshal.load] is not part of the repository: it is the parameter
    [marshal_load], which reads the rest of the file and gives the object
    it holds, or nothing when it raises; in that case nothing is
    disassembled. *)
Definition disassemble_pyc (dis : dis_module) (repr : pyobj -> string)
    (version_info : list Z) (marshal_load : list byte -> option pyobj)
    (fuel : nat) (contents : list byte) : option (list event * outcome) :=
  let header_size := header_size version_info in
  let metadata := take (Z.to_nat header_size) contents in
  match marshal_load (drop (Z.to_nat header_size) contents) with
  | Some code_obj => Some (disassemble dis repr fuel code_obj)
  | None => None
  end.

(** ** Notions used to state properties *)

(** A line increment read as a signed byte. *)
Definition signed_line_incr (line_incr : byte) : Z :=
  if 0x80 <=? byte_val line_incr then byte_val line_incr - 0x100
  else byte_val line_incr.

(** The sums of the byte increments and of the signed line increments of a
    list of pairs. *)
Definition byte_total (pairs : list (byte * byte)) : Z :=
  foldr (fun p acc => byte_val p.1 + acc) 0 pairs.

Definition line_total (pairs : list (byte * byte)) : Z :=
  foldr (fun p acc => signed_line_incr p.2 + acc) 0 pairs.

(** What was printed before the first header: the listing of the unit
    itself. *)
Fixpoint before_first_header (out : list event) : list event :=
  match out with
  | [] => []
  | e :: out' => if is_header e then [] else e :: before_first_header out'
  end.

(** Whether an instruction is a jump the collector follows. *)
Definition is_jump (dis : dis_module) (ins : instr) : bool :=
  bool_decide (instr_opcode ins ∈ hasjrel dis)
  || bool_decide (instr_opcode ins ∈ hasjabs dis).

(** The listing line of an instruction: the six format arguments as the
    loop of [disassemble] computes them from the instruction, the line
    table and the labels. *)
Definition line_of (dis : dis_module) (repr : pyobj -> string) (c : code)
    (linestarts : gmap Z Z) (labels : list (option Z)) (ins : instr)
    (t : dis_text) : Prop :=
  text_offset t = instr_offset ins
  /\ text_oparg t = instr_oparg ins
  /\ py_index (opname dis) (instr_opcode ins) = inr (text_opname t)
  /\ text_line t = line_or_empty (linestarts !! instr_offset ins)
  /\ text_mark t = bool_decide (Some (instr_offset ins) ∈ labels)
  /\ exists argvalue,
      get_argvalue dis repr (instr_offset ins) c (instr_opcode ins)
        (instr_oparg ins) = inr argvalue
      /\ text_argvalue t = argvalue_or_empty argvalue.

(** Listing lines laid out with an empty line before each one that shows a
    line number and is not at offset 0. *)
Definition with_blank_lines (lines : list dis_text) : list event :=
  flat_map
    (fun t =>
       (if bool_decide (is_Some (text_line t)) && negb (text_offset t =? 0)
        then [Blank] else []) ++ [Text t])
    lines.

(** The accumulator is never negative and its low eight bits are clear. *)
Definition accumulator_ok (extended_arg : Z) : Prop :=
  0 <= extended_arg /\ Z.land extended_arg 255 = 0.

(** ** Sample code objects *)

(** A code object that carries nothing but a line table. *)
Definition code_of_lnotab (lnotab : list byte) (firstlineno : Z) : code :=
  Code [] (Some []) (Some []) (Some []) (Some []) (Some []) lnotab firstlineno.

(** A unit with three jumps, two of them to offset 6:
    [JUMP_FORWARD 4; POP_JUMP_IF_FALSE 6; JUMP_ABSOLUTE 0; RETURN_VALUE]. *)
Definition code_with_jumps : code :=
  Code [Byte.x6e; Byte.x04; Byte.x72; Byte.x06; Byte.x71; Byte.x00;
        Byte.x53; Byte.x00]
    (Some []) (Some []) (Some []) (Some []) (Some []) [] 1.

(** Two nested units: [LOAD_CONST 0; RETURN_VALUE] over one constant. *)
Definition nested_unit (constant : Z) : pyobj :=
  PyCode (Code [Byte.x64; Byte.x00; Byte.x53; Byte.x00]
            (Some [PyInt constant]) (Some []) (Some []) (Some []) (Some [])
            [] 1).

(** A unit that loads its four constants [A, nested_unit 1, B,
    nested_unit 2] in turn and returns. *)
Definition parent_unit : code :=
  Code [Byte.x64; Byte.x00; Byte.x64; Byte.x01; Byte.x64; Byte.x02;
        Byte.x64; Byte.x03; Byte.x53; Byte.x00]
    (Some [PyInt 5; nested_unit 1; PyStr "B"; nested_unit 2])
    (Some []) (Some []) (Some []) (Some []) [Byte.x00; Byte.x00] 1.

(** The stream of C2: [EXTENDED_ARG 1; EXTENDED_ARG 2; LOAD_CONST 3]. *)
Definition extended_stream : list byte :=
  [Byte.x90; Byte.x01; Byte.x90; Byte.x02; Byte.x64; Byte.x03].

(** A unit with every table filled in. *)
Definition sample_unit : code :=
  Code [Byte.x64; Byte.x00; Byte.x53; Byte.x00]
    (Some [PyInt 5; PyNone; PyStr "text"; nested_unit 1])
    (Some ["print"; "a"]) (Some ["x"]) (Some ["z"]) (Some ["t"]) [] 1.

(** A unit cut off in the middle of its second instruction:
    [LOAD_CONST 0] and a lone [LOAD_CONST] byte. *)
Definition truncated_unit : code :=
  Code ([Byte.x64; Byte.x00] ++ [Byte.x64])
    (Some [PyInt 5]) (Some []) (Some []) (Some []) (Some []) [] 1.

(** [a = 5] on line 1 and [return a] on line 2:
    [LOAD_CONST 0; STORE_NAME 0; LOAD_NAME 0; RETURN_VALUE]. *)
Definition listed_unit : code :=
  Code [Byte.x64; Byte.x00; Byte.x5a; Byte.x00; Byte.x65; Byte.x00;
        Byte.x53; Byte.x00]
    (Some [PyInt 5]) (Some ["a"]) (Some []) (Some []) (Some [])
    [Byte.x04; Byte.x01] 1.

(** A stand-in for [marshal.load] that reads a code object, whose only
    content is its instruction bytes, from a stream that starts with the
    type code of code objects, and anything else as the integer 0. *)
Definition sample_marshal_load (payload : list byte) : option pyobj :=
  match payload with
  | [] => None
  | tag :: rest =>
      if byte_val tag =? 0xe3 then
        Some (PyCode (Code rest (Some []) (Some []) (Some []) (Some [])
                        (Some []) [] 1))
      else Some (PyInt 0)
  end.

(** A unit whose second instruction, [LOAD_CONST 7], points past its
    only constant. *)
Definition failing_unit : code :=
  Code [Byte.x64; Byte.x00; Byte.x64; Byte.x07; Byte.x53; Byte.x00]
    (Some [PyInt 5]) (Some []) (Some []) (Some []) (Some []) [] 1.

(** A unit without a constant pool. *)
Definition poolless_unit : code :=
  Code [Byte.x64; Byte.x00; Byte.x53; Byte.x00]
    None (Some []) (Some []) (Some []) (Some []) [] 1.

(** ** Proof steps *)

(** Decide the category tests of [get_argvalue] from the hypotheses. *)
Ltac categories :=
  repeat match goal with
    | H : _ ∈ _ |- _ => rewrite (bool_decide_eq_true_2 _ H); clear H
    | H : _ ∉ _ |- _ => rewrite (bool_decide_eq_false_2 _ H); clear H
    end.

(** * Properties *)

(** ** Sequences and bytes *)

Lemma byte_val_range (b : byte) : 0 <= byte_val b < 256.
Proof.
  unfold byte_val. pose proof (Byte.to_N_bounded b). lia.
Qed.

Lemma py_index_inr {A : Type} (l : list A) (i : Z) (x : A) :
  0 <= i -> l !! Z.to_nat i = Some x -> py_index l i = inr x.
Proof.
  intros Hi Hx. unfold py_index.
  pose proof (lookup_lt_Some _ _ _ Hx) as Hlt.
  replace (i <? 0) with false by (symmetry; apply Z.ltb_ge; lia).
  replace (0 <=? i) with true by (symmetry; apply Z.leb_le; lia).
  replace (i <? Z.of_nat (length l)) with true
    by (symmetry; apply Z.ltb_lt; lia).
  simpl. by rewrite Hx.
Qed.

Lemma py_index_past_end {A : Type} (l : list A) (i : Z) :
  Z.of_nat (length l) <= i -> py_index l i = inl IndexError.
Proof.
  intros Hi. unfold py_index.
  replace (i <? 0) with false by (symmetry; apply Z.ltb_ge; lia).
  replace (i <? Z.of_nat (length l)) with false
    by (symmetry; apply Z.ltb_ge; lia).
  by rewrite andb_false_r.
Qed.

Lemma py_index_app_l {A : Type} (l l' : list A) (i : Z) :
  0 <= i < Z.of_nat (length l) -> py_index (l ++ l') i = py_index l i.
Proof.
  intros Hi.
  destruct (lookup_lt_is_Some_2 l (Z.to_nat i)) as [x Hx]; [lia|].
  rewrite (py_index_inr l i x), (py_index_inr (l ++ l') i x); try lia; try done.
  by rewrite lookup_app_l by lia.
Qed.

Lemma py_index_app_end {A : Type} (l : list A) (x : A) :
  py_index (l ++ [x]) (Z.of_nat (length l)) = inr x.
Proof.
  apply py_index_inr; [lia|].
  rewrite Nat2Z.id. by rewrite lookup_app_r, Nat.sub_diag by lia.
Qed.

Lemma range_by_2_even (k : nat) :
  range_by_2 (2 * k) = (fun j : nat => 2 * Z.of_nat j) <$> seq 0 k.
Proof.
  unfold range_by_2. do 2 f_equal.
  by rewrite Nat.div2_succ_double.
Qed.

Lemma range_by_2_odd (k : nat) :
  range_by_2 (S (2 * k))
  = ((fun j : nat => 2 * Z.of_nat j) <$> seq 0 k) ++ [2 * Z.of_nat k].
Proof.
  unfold range_by_2.
  replace (S (S (2 * k))) with (2 * S k)%nat by lia.
  by rewrite Nat.div2_double, seq_S, fmap_app.
Qed.

Lemma range_by_2_ascending (stop : nat) : StronglySorted Z.lt (range_by_2 stop).
Proof.
  unfold range_by_2. generalize (Nat.div2 (S stop)) as n, 0%nat as start.
  induction n as [|n IH]; intros start; simpl; constructor; [apply IH|].
  apply Forall_fmap, Forall_forall. intros j Hj%elem_of_seq. simpl. lia.
Qed.

(** ** The instruction decoder *)

Section UnpackOp.

Variable dis : dis_module.

(** Inside a complete two-byte chunk the loop body never raises, and bytes
    that follow the chunk do not matter to it. *)
Lemma unpack_body_chunk (bytecode extra : list byte) (i extended_arg : Z) :
  0 <= i -> i + 1 < Z.of_nat (length bytecode) ->
  (exists r, unpack_body dis bytecode i extended_arg = inr r)
  /\ unpack_body dis (bytecode ++ extra) i extended_arg
     = unpack_body dis bytecode i extended_arg.
Proof.
  intros Hi Hlen. unfold unpack_body.
  rewrite !py_index_app_l by lia.
  destruct (lookup_lt_is_Some_2 bytecode (Z.to_nat i)) as [b0 Hb0]; [lia|].
  destruct (lookup_lt_is_Some_2 bytecode (Z.to_nat (i + 1))) as [b1 Hb1];
    [lia|].
  rewrite (py_index_inr bytecode i b0), (py_index_inr bytecode (i + 1) b1)
    by (done || lia).
  split; [|done]. destruct (_ <=? _); eauto.
Qed.

(** The last iteration over a stream of odd length: a trailing opcode that
    takes an argument reads past the end, any other is yielded as it is. *)
Lemma unpack_body_trailing (bytecode : list byte) (b : byte)
    (extended_arg : Z) :
  unpack_body dis (bytecode ++ [b]) (Z.of_nat (length bytecode)) extended_arg
  = if HAVE_ARGUMENT dis <=? byte_val b then inl IndexError
    else inr ((Z.of_nat (length bytecode), byte_val b, None), extended_arg).
Proof.
  unfold unpack_body. rewrite py_index_app_end.
  rewrite (py_index_past_end _ (_ + 1)); [done|].
  rewrite length_app. simpl. lia.
Qed.

Lemma unpack_loop_trailing (bytecode : list byte) (b : byte)
    (indices : list Z) :
  Forall (fun i => 0 <= i /\ i + 1 < Z.of_nat (length bytecode)) indices ->
  forall extended_arg,
    raised (unpack_loop dis bytecode indices extended_arg) = None
    /\ raised (unpack_loop dis (bytecode ++ [b])
                 (indices ++ [Z.of_nat (length bytecode)]) extended_arg)
       = (if HAVE_ARGUMENT dis <=? byte_val b then Some IndexError else None)
    /\ yielded (unpack_loop dis (bytecode ++ [b])
                  (indices ++ [Z.of_nat (length bytecode)]) extended_arg)
       = yielded (unpack_loop dis bytecode indices extended_arg)
         ++ (if HAVE_ARGUMENT dis <=? byte_val b then []
             else [(Z.of_nat (length bytecode), byte_val b, None)]).
Proof.
  induction 1 as [|i indices [Hi Hlen] _ IH]; intros extended_arg; simpl.
  - rewrite unpack_body_trailing. by destruct (_ <=? _).
  - destruct (unpack_body_chunk bytecode [b] i extended_arg Hi Hlen)
      as [[[ins ea'] Hr] Heq].
    rewrite Heq, Hr. simpl. destruct (IH ea') as (H1 & H2 & H3).
    by rewrite H1, H2, H3.
Qed.

Lemma range_by_2_chunks (k : nat) :
  Forall (fun i => 0 <= i /\ i + 1 < Z.of_nat (2 * k)) (range_by_2 (2 * k)).
Proof.
  rewrite range_by_2_even. apply Forall_fmap, Forall_forall.
  intros j Hj%elem_of_seq. simpl. lia.
Qed.

(** A stream of even length is decoded without an exception. *)
Lemma unpack_op_even_length (bytecode : list byte) (k : nat) :
  length bytecode = (2 * k)%nat -> raised (unpack_op dis bytecode) = None.
Proof.
  intros Hlen. unfold unpack_op.
  pose proof (range_by_2_chunks k) as Hfa. rewrite <- Hlen in Hfa.
  apply (unpack_loop_trailing bytecode Byte.x00 _ Hfa 0).
Qed.

(** The offsets of the instructions yielded are the indices of the loop, in
    their order. *)
Lemma unpack_loop_offsets (bytecode : list byte) (indices : list Z)
    (extended_arg : Z) :
  instr_offset <$> yielded (unpack_loop dis bytecode indices extended_arg)
  = take (length (yielded (unpack_loop dis bytecode indices extended_arg)))
      indices.
Proof.
  revert extended_arg. induction indices as [|i indices IH]; intros ea; [done|].
  simpl. destruct (unpack_body dis bytecode i ea) as [e|[ins ea']] eqn:Hbody;
    [done|].
  simpl. rewrite IH. f_equal.
  unfold unpack_body in Hbody.
  destruct (py_index bytecode i); [done|].
  destruct (_ <=? _); [destruct (py_index bytecode (i + 1)); [done|]|];
    by inversion Hbody.
Qed.

Lemma unpack_loop_length (bytecode : list byte) (indices : list Z)
    (extended_arg : Z) :
  raised (unpack_loop dis bytecode indices extended_arg) = None ->
  length (yielded (unpack_loop dis bytecode indices extended_arg))
  = length indices.
Proof.
  revert extended_arg. induction indices as [|i indices IH]; intros ea; [done|].
  simpl. destruct (unpack_body dis bytecode i ea) as [e|[ins ea']]; [done|].
  simpl. intros Hr. by rewrite IH.
Qed.

(** A run of [unpack_op] that does not raise visits the offsets 0, 2, 4,
    ... up to the length of the stream. *)
Lemma unpack_op_offsets (bytecode : list byte) :
  raised (unpack_op dis bytecode) = None ->
  instr_offset <$> yielded (unpack_op dis bytecode)
  = range_by_2 (length bytecode).
Proof.
  intros Hraised. unfold unpack_op in *.
  rewrite unpack_loop_offsets, unpack_loop_length by done. apply firstn_all.
Qed.

(** The accumulator trace follows the run of [unpack_op] step by step: it
    lists the opcodes of the instructions yielded. *)
Lemma accumulator_trace_opcodes (bytecode : list byte) (indices : list Z)
    (extended_arg : Z) :
  (fun t : Z * Z * Z => t.1.2)
    <$> accumulator_trace dis bytecode indices extended_arg
  = instr_opcode <$> yielded (unpack_loop dis bytecode indices extended_arg).
Proof.
  revert extended_arg. induction indices as [|i indices IH]; intros ea; [done|].
  simpl. destruct (unpack_body dis bytecode i ea) as [e|[ins ea']]; [done|].
  simpl. by rewrite IH.
Qed.

(** What one completed iteration does to the accumulator. *)
Lemma unpack_body_accumulator (bytecode : list byte) (i before after : Z)
    (ins : instr) :
  unpack_body dis bytecode i before = inr (ins, after) ->
  (HAVE_ARGUMENT dis <= instr_opcode ins
   /\ instr_opcode ins = EXTENDED_ARG dis
   /\ exists oparg, instr_oparg ins = Some oparg /\ after = Z.shiftl oparg 8)
  \/ (HAVE_ARGUMENT dis <= instr_opcode ins
      /\ instr_opcode ins <> EXTENDED_ARG dis /\ after = 0)
  \/ (instr_opcode ins < HAVE_ARGUMENT dis
      /\ instr_oparg ins = None /\ after = before).
Proof.
  unfold unpack_body. intros H.
  destruct (py_index bytecode i) as [e|b0]; [done|].
  destruct (Z.leb_spec (HAVE_ARGUMENT dis) (byte_val b0)) as [Hge|Hlt].
  - destruct (py_index bytecode (i + 1)) as [e|b1]; [done|].
    destruct (Z.eqb_spec (byte_val b0) (EXTENDED_ARG dis)) as [Heq|Hne];
      inversion H; subst; unfold instr_opcode, instr_oparg; simpl.
    + left. eauto.
    + right. left. done.
  - inversion H; subst. right. right. done.
Qed.

Lemma accumulator_trace_steps (bytecode : list byte) (indices : list Z)
    (extended_arg before opcode after : Z) :
  (before, opcode, after)
    ∈ accumulator_trace dis bytecode indices extended_arg ->
  (HAVE_ARGUMENT dis <= opcode /\ opcode = EXTENDED_ARG dis)
  \/ (HAVE_ARGUMENT dis <= opcode /\ opcode <> EXTENDED_ARG dis /\ after = 0)
  \/ (opcode < HAVE_ARGUMENT dis /\ after = before).
Proof.
  revert extended_arg.
  induction indices as [|i indices IH]; intros ea; simpl.
  - by intros ?%elem_of_nil.
  - destruct (unpack_body dis bytecode i ea) as [e|[ins ea']] eqn:Hbody.
    + by intros ?%elem_of_nil.
    + intros [Heq|Hin]%elem_of_cons; [|by eapply IH].
      inversion Heq; subst.
      destruct (unpack_body_accumulator _ _ _ _ _ Hbody)
        as [(? & ? & _)|[(? & ? & ?)|(? & _ & ?)]]; eauto.
Qed.

(** C3 (as amended): the accumulator becomes nonzero only through the
    extended-argument opcode, is zero after every other opcode that takes an
    argument, and is left as it was by an opcode below the has-argument
    threshold. *)
Theorem unpack_op_accumulator_steps (bytecode : list byte)
    (before opcode after : Z) :
  (before, opcode, after) ∈ unpack_op_accumulators dis bytecode ->
  (HAVE_ARGUMENT dis <= opcode /\ opcode = EXTENDED_ARG dis)
  \/ (HAVE_ARGUMENT dis <= opcode /\ opcode <> EXTENDED_ARG dis /\ after = 0)
  \/ (opcode < HAVE_ARGUMENT dis /\ after = before).
Proof.
  apply accumulator_trace_steps.
Qed.

(** C7 (as amended): on a stream of odd length whose trailing byte is an
    opcode that takes an argument, [unpack_op] yields the instructions of the
    complete chunks and then raises [IndexError]; a trailing opcode below
    the threshold is yielded as a last instruction without an operand. *)
Theorem unpack_op_odd_length (bytecode : list byte) (b : byte) (k : nat) :
  length bytecode = (2 * k)%nat ->
  raised (unpack_op dis (bytecode ++ [b]))
  = (if HAVE_ARGUMENT dis <=? byte_val b then Some IndexError else None)
  /\ yielded (unpack_op dis (bytecode ++ [b]))
     = yielded (unpack_op dis bytecode)
       ++ (if HAVE_ARGUMENT dis <=? byte_val b then []
           else [(Z.of_nat (length bytecode), byte_val b, None)]).
Proof.
  intros Hlen. unfold unpack_op.
  pose proof (range_by_2_chunks k) as Hfa. rewrite <- Hlen in Hfa.
  destruct (unpack_loop_trailing bytecode b _ Hfa 0) as (_ & H2 & H3).
  replace (range_by_2 (length (bytecode ++ [b])))
    with (range_by_2 (length bytecode) ++ [Z.of_nat (length bytecode)]);
    [done|].
  rewrite length_app. simpl. rewrite Hlen.
  replace (2 * k + 1)%nat with (S (2 * k)) by lia.
  rewrite range_by_2_odd, <- range_by_2_even. do 2 f_equal. lia.
Qed.

(** C2: two extended-argument instructions carrying 0x01 and 0x02 before an
    instruction that takes an argument and carries 0x03 give that
    instruction the operand 0x010203. *)
Theorem unpack_op_extended_arg_chain (ext op : byte) :
  byte_val ext = EXTENDED_ARG dis ->
  HAVE_ARGUMENT dis <= EXTENDED_ARG dis ->
  HAVE_ARGUMENT dis <= byte_val op ->
  unpack_op dis [ext; Byte.x01; ext; Byte.x02; op; Byte.x03]
  = GYield (0, EXTENDED_ARG dis, Some 0x01)
      (GYield (2, EXTENDED_ARG dis, Some 0x0102)
         (GYield (4, byte_val op, Some 0x010203) GStop)).
Proof.
  intros Hext Hge Hop.
  assert (Hle : (HAVE_ARGUMENT dis <=? EXTENDED_ARG dis) = true)
    by (apply Z.leb_le; lia).
  assert (Hle' : (HAVE_ARGUMENT dis <=? byte_val op) = true)
    by (apply Z.leb_le; lia).
  set (bytecode := [ext; Byte.x01; ext; Byte.x02; op; Byte.x03]).
  unfold unpack_op.
  change (range_by_2 (length bytecode)) with [0; 2; 4].
  cbn [unpack_loop]. unfold unpack_body.
  rewrite (py_index_inr bytecode 0 ext),
    (py_index_inr bytecode (0 + 1) Byte.x01),
    (py_index_inr bytecode 2 ext), (py_index_inr bytecode (2 + 1) Byte.x02),
    (py_index_inr bytecode 4 op), (py_index_inr bytecode (4 + 1) Byte.x03)
    by (done || lia).
  rewrite Hext, Hle, Z.eqb_refl, Hle'.
  destruct (byte_val op =? EXTENDED_ARG dis); reflexivity.
Qed.

End UnpackOp.

(** The chain of C2 under the tables of CPython 3.8, with [LOAD_CONST] as
    the final instruction. *)
Lemma unpack_op_extended_arg_chain_witness :
  byte_val Byte.x90 = EXTENDED_ARG CPython38.dis
  /\ HAVE_ARGUMENT CPython38.dis <= EXTENDED_ARG CPython38.dis
  /\ HAVE_ARGUMENT CPython38.dis <= byte_val Byte.x64
  /\ unpack_op CPython38.dis
       [Byte.x90; Byte.x01; Byte.x90; Byte.x02; Byte.x64; Byte.x03]
     = GYield (0, 144, Some 0x01)
         (GYield (2, 144, Some 0x0102)
            (GYield (4, 100, Some 0x010203) GStop)).
Proof.
  split; [reflexivity|]. split; [vm_compute; discriminate|].
  split; [vm_compute; discriminate|].
  apply (unpack_op_extended_arg_chain CPython38.dis Byte.x90 Byte.x64).
  - reflexivity.
  - vm_compute; discriminate.
  - vm_compute; discriminate.
Defined.

(** [EXTENDED_ARG 1; LOAD_CONST 3]: the extension sets the accumulator, the
    instruction that consumes it clears it. *)
Lemma unpack_op_accumulator_steps_witness :
  (256, 100, 0) ∈ unpack_op_accumulators CPython38.dis
                    [Byte.x90; Byte.x01; Byte.x64; Byte.x03]
  /\ ((HAVE_ARGUMENT CPython38.dis <= 100 /\ 100 = EXTENDED_ARG CPython38.dis)
      \/ (HAVE_ARGUMENT CPython38.dis <= 100
          /\ 100 <> EXTENDED_ARG CPython38.dis /\ 0 = 0)
      \/ (100 < HAVE_ARGUMENT CPython38.dis /\ 0 = 256)).
Proof.
  assert (Hin : (256, 100, 0) ∈ unpack_op_accumulators CPython38.dis
                  [Byte.x90; Byte.x01; Byte.x64; Byte.x03]).
  { change (unpack_op_accumulators CPython38.dis
              [Byte.x90; Byte.x01; Byte.x64; Byte.x03])
      with [(0, 144, 256); (256, 100, 0)].
    apply list_elem_of_further, list_elem_of_here. }
  split; [exact Hin|].
  exact (unpack_op_accumulator_steps CPython38.dis _ 256 100 0 Hin).
Defined.

(** C3 as stated fails: in [EXTENDED_ARG 1; NOP; LOAD_CONST 3] the [NOP],
    which is no extension, leaves the accumulator at 256, and [LOAD_CONST]
    gets the operand 259. *)
Lemma unpack_op_accumulator_kept_by_nop :
  (256, 9, 256) ∈ unpack_op_accumulators CPython38.dis
                    [Byte.x90; Byte.x01; Byte.x09; Byte.x00; Byte.x64; Byte.x03]
  /\ 9 <> EXTENDED_ARG CPython38.dis
  /\ 256 <> 0
  /\ yielded (unpack_op CPython38.dis
                [Byte.x90; Byte.x01; Byte.x09; Byte.x00; Byte.x64; Byte.x03])
     = [(0, 144, Some 1); (2, 9, None); (4, 100, Some 259)].
Proof.
  split; [|split; [discriminate|split; [discriminate|reflexivity]]].
  change (unpack_op_accumulators CPython38.dis
            [Byte.x90; Byte.x01; Byte.x09; Byte.x00; Byte.x64; Byte.x03])
    with [(0, 144, 256); (256, 9, 256); (256, 100, 0)].
  apply list_elem_of_further, list_elem_of_here.
Qed.

(** [LOAD_CONST 0] followed by a lone [LOAD_CONST] byte: the first
    instruction is yielded, then the missing operand raises. *)
Lemma unpack_op_odd_length_witness :
  length [Byte.x64; Byte.x00] = (2 * 1)%nat
  /\ raised (unpack_op CPython38.dis ([Byte.x64; Byte.x00] ++ [Byte.x64]))
     = Some IndexError
  /\ yielded (unpack_op CPython38.dis ([Byte.x64; Byte.x00] ++ [Byte.x64]))
     = [(0, 100, Some 0)].
Proof.
  split; [reflexivity|].
  exact (unpack_op_odd_length CPython38.dis [Byte.x64; Byte.x00] Byte.x64 1
           eq_refl).
Defined.

(** C7 as stated fails: the one-byte stream [NOP] has odd length and is
    decoded, without any error, as one complete instruction. *)
Lemma unpack_op_odd_length_accepted :
  Nat.Odd (length [Byte.x09])
  /\ unpack_op CPython38.dis [Byte.x09] = GYield (0, 9, None) GStop
  /\ raised (unpack_op CPython38.dis [Byte.x09]) = None.
Proof.
  split; [by exists 0%nat|]. split; reflexivity.
Qed.

(** ** The line table *)

Lemma slice_lengths {A : Type} (s : list A) :
  length (slice_0_2 s) = Nat.div2 (S (length s))
  /\ length (slice_1_2 s) = Nat.div2 (length s).
Proof.
  assert (H : forall n (s : list A), (length s <= n)%nat ->
            length (slice_0_2 s) = Nat.div2 (S (length s))).
  { induction n as [|n IH]; intros [|x [|y t]] Hn; simpl in *;
      try done; try lia.
    rewrite IH by lia. done. }
  split; [by apply (H (length s))|].
  destruct s as [|x t]; [done|]. simpl slice_1_2.
  rewrite (H (length t)) by done. done.
Qed.

(** A table of [2 n] or [2 n + 1] bytes encodes [n] pairs. *)
Lemma lnotab_pairs_length (codeobj : code) :
  length (lnotab_pairs codeobj) = Nat.div2 (length (co_lnotab codeobj)).
Proof.
  unfold lnotab_pairs. rewrite length_zip.
  destruct (slice_lengths (co_lnotab codeobj)) as [-> ->].
  generalize (length (co_lnotab codeobj)) as n. intros n.
  assert (H : forall m n, (n <= m)%nat -> (Nat.div2 n <= Nat.div2 (S n))%nat).
  { induction m as [|m IH]; intros [|[|k]] Hk; simpl; try lia.
    specialize (IH k). simpl in IH. lia. }
  specialize (H n n). lia.
Qed.

(** The loop of [find_linestarts], from any state whose keys do not exceed
    the running offset. *)
Lemma linestarts_fold (pairs : list (byte * byte)) :
  forall (byte line : Z) (d : gmap Z Z),
    (forall k, is_Some (d !! k) -> k <= byte) ->
    is_Some (d !! 0) ->
    let r := (foldl linestarts_body (byte, line, d) pairs).2 in
    is_Some (r !! 0)
    /\ (size r <= size d + length pairs)%nat
    /\ (Forall (fun p : Byte.byte * Byte.byte => byte_val p.1 <> 0) pairs ->
        size r = (size d + length pairs)%nat).
Proof.
  induction pairs as [|[b l] pairs IH]; intros byte line d Hkeys H0; simpl.
  - split; [done|]. split; [lia|intros _; lia].
  - pose proof (byte_val_range b) as Hb.
    set (byte' := byte + byte_val b).
    set (line' := line + _).
    destruct (IH byte' line' (<[byte' := line']> d)) as (IH0 & IHle & IHeq).
    { intros k. rewrite lookup_insert. case_decide; [lia|].
      intros Hk%Hkeys. lia. }
    { rewrite lookup_insert. case_decide; [by eexists|done]. }
    split; [done|]. split.
    + etrans; [exact IHle|]. rewrite map_size_insert.
      destruct (d !! byte'); unfold id; lia.
    + intros [Hne Hrest]%Forall_cons. simpl in Hne.
      rewrite IHeq by done. rewrite map_size_insert_None; [lia|].
      apply eq_None_not_Some. intros Hk%Hkeys. lia.
Qed.

(** C5 (as amended): the mapping has an entry for offset 0 and at most one
    entry more than the table has pairs; it has exactly that many when every
    byte increment is nonzero. *)
Theorem find_linestarts_size (codeobj : code) :
  let n := Nat.div2 (length (co_lnotab codeobj)) in
  is_Some (find_linestarts codeobj !! 0)
  /\ (size (find_linestarts codeobj) <= n + 1)%nat
  /\ (Forall (fun p : Byte.byte * Byte.byte => byte_val p.1 <> 0)
        (lnotab_pairs codeobj) ->
      size (find_linestarts codeobj) = (n + 1)%nat).
Proof.
  intros n. unfold n. rewrite <- lnotab_pairs_length.
  unfold find_linestarts. fold (lnotab_pairs codeobj).
  destruct (linestarts_fold (lnotab_pairs codeobj) 0 (co_firstlineno codeobj)
              {[ 0 := co_firstlineno codeobj ]}) as (H0 & Hle & Heq).
  - intros k [v Hk]. apply lookup_singleton_Some in Hk. lia.
  - rewrite lookup_singleton_eq. by eexists.
  - rewrite map_size_singleton in Hle, Heq.
    split; [done|]. split; [lia|]. intros Hnz. rewrite Heq by done. lia.
Qed.

(** The table 0 0, 4 1, 6 255 from first line 10. *)
Lemma find_linestarts_three_pairs bytecode constants names varnames cellvars
    freevars :
  find_linestarts
    (Code bytecode constants names varnames cellvars freevars
       [Byte.x00; Byte.x00; Byte.x04; Byte.x01; Byte.x06; Byte.xff] 10)
  = {[ 0 := 10; 4 := 11; 10 := 10 ]}.
Proof.
  apply map_eq. intros k. vm_compute. reflexivity.
Qed.

(** Two pairs with nonzero byte increments give three entries. *)
Lemma find_linestarts_size_witness :
  Forall (fun p : Byte.byte * Byte.byte => byte_val p.1 <> 0)
    (lnotab_pairs (code_of_lnotab [Byte.x04; Byte.x01; Byte.x06; Byte.xff] 10))
  /\ size (find_linestarts
            (code_of_lnotab [Byte.x04; Byte.x01; Byte.x06; Byte.xff] 10))
     = 3%nat.
Proof.
  assert (Hnz : Forall (fun p : Byte.byte * Byte.byte => byte_val p.1 <> 0)
            (lnotab_pairs
               (code_of_lnotab [Byte.x04; Byte.x01; Byte.x06; Byte.xff] 10))).
  { repeat constructor; vm_compute; discriminate. }
  split; [exact Hnz|].
  exact (proj2 (proj2 (find_linestarts_size
           (code_of_lnotab [Byte.x04; Byte.x01; Byte.x06; Byte.xff] 10))) Hnz).
Defined.

(** C5 as stated fails: the table of C4 has three pairs, and its mapping has
    three entries, not four, because the pair (0, 0) rewrites the entry for
    offset 0. *)
Lemma find_linestarts_size_overwritten :
  Nat.div2 (length (co_lnotab
     (code_of_lnotab
        [Byte.x00; Byte.x00; Byte.x04; Byte.x01; Byte.x06; Byte.xff] 10)))
  = 3%nat
  /\ size (find_linestarts
            (code_of_lnotab
               [Byte.x00; Byte.x00; Byte.x04; Byte.x01; Byte.x06; Byte.xff] 10))
     = 3%nat
  /\ 3%nat <> (3 + 1)%nat.
Proof.
  split; [reflexivity|]. split; [|discriminate].
  unfold code_of_lnotab.
  rewrite find_linestarts_three_pairs.
  reflexivity.
Qed.

(** ** The operand resolver *)

Section GetArgvalue.

Variable dis : dis_module.
Variable repr : pyobj -> string.

(** C1 (the code departs from it): for a relative-jump opcode the resolver
    computes [offset + 2 + oparg] and then overwrites it, so that its result
    is the text of the resolver function itself, the same for every offset
    and every operand. *)
Theorem get_argvalue_jrel_discards_destination (offset : Z) (codeobj : code)
    (opcode oparg : Z) (cell_names : option (list string)) :
  py_concat (co_cellvars codeobj) (co_freevars codeobj) = inr cell_names ->
  opcode ∉ hasconst dis -> opcode ∉ hasname dis -> opcode ∈ hasjrel dis ->
  get_argvalue dis repr offset codeobj opcode (Some oparg)
  = inr (PyStr ("to " +:+ repr get_argvalue_object)).
Proof.
  intros Hcells Hconst Hname Hjrel. unfold get_argvalue. rewrite Hcells.
  rewrite (bool_decide_eq_false_2 _ Hconst), (bool_decide_eq_false_2 _ Hname),
    (bool_decide_eq_true_2 _ Hjrel).
  reflexivity.
Qed.

(** X27: a missing constant pool, name table or local-name table is read as
    "no value" by the opcodes of its category, provided the two closure
    tables can be concatenated. *)
Lemma get_argvalue_missing_table (offset : Z) (codeobj : code) (opcode : Z)
    (oparg : option Z) (cell_names : option (list string)) :
  py_concat (co_cellvars codeobj) (co_freevars codeobj) = inr cell_names ->
  (opcode ∈ hasconst dis -> co_consts codeobj = None ->
   get_argvalue dis repr offset codeobj opcode oparg = inr PyNone)
  /\ (opcode ∉ hasconst dis -> opcode ∈ hasname dis ->
      co_names codeobj = None ->
      get_argvalue dis repr offset codeobj opcode oparg = inr PyNone)
  /\ (opcode ∉ hasconst dis -> opcode ∉ hasname dis ->
      opcode ∉ hasjrel dis ->
      opcode ∈ haslocal dis -> co_varnames codeobj = None ->
      get_argvalue dis repr offset codeobj opcode oparg = inr PyNone).
Proof.
  intros Hcells. unfold get_argvalue. rewrite Hcells.
  repeat split; intros;
    repeat match goal with
      | H : _ ∈ _ |- _ => rewrite (bool_decide_eq_true_2 _ H); clear H
      | H : _ ∉ _ |- _ => rewrite (bool_decide_eq_false_2 _ H); clear H
      | H : _ = None |- _ => rewrite H; clear H
      end; reflexivity.
Qed.

(** The concatenation of the two closure tables never yields [None]: the
    guard on [cell_names] in the last branch cannot be what protects it. *)
Lemma py_concat_not_none {A : Type} (a b : option (list A)) :
  py_concat a b <> inr None.
Proof. by destruct a, b. Qed.

(** C10 (the code departs from it): when the cell-variable table or the
    free-variable table is [None], the resolver raises [TypeError] on their
    concatenation, for every opcode and before any category is looked at. *)
Theorem get_argvalue_missing_cell_table (offset : Z) (codeobj : code)
    (opcode : Z) (oparg : option Z) :
  co_cellvars codeobj = None \/ co_freevars codeobj = None ->
  get_argvalue dis repr offset codeobj opcode oparg = inl TypeError.
Proof.
  intros H. unfold get_argvalue.
  destruct H as [-> | ->]; [done|]. by destruct (co_cellvars codeobj).
Qed.

End GetArgvalue.

(** [JUMP_FORWARD 6] at offset 20 jumps to 28; the resolved text does not
    say so. *)
Lemma get_argvalue_jrel_discards_destination_witness :
  py_concat (co_cellvars (code_of_lnotab [] 1))
            (co_freevars (code_of_lnotab [] 1)) = inr (Some [])
  /\ (110 ∉ hasconst CPython38.dis)
  /\ (110 ∉ hasname CPython38.dis)
  /\ (110 ∈ hasjrel CPython38.dis)
  /\ get_argvalue CPython38.dis CPython38.repr 20 (code_of_lnotab [] 1) 110
       (Some 6)
     = inr (PyStr "to <function get_argvalue at 0x7f3a5c0d1e50>").
Proof.
  assert (H1 : 110 ∉ hasconst CPython38.dis)
    by (apply (bool_decide_unpack _); exact I).
  assert (H2 : 110 ∉ hasname CPython38.dis)
    by (apply (bool_decide_unpack _); exact I).
  assert (H3 : 110 ∈ hasjrel CPython38.dis)
    by (apply (bool_decide_unpack _); exact I).
  split; [reflexivity|]. split; [exact H1|]. split; [exact H2|].
  split; [exact H3|].
  exact (get_argvalue_jrel_discards_destination CPython38.dis CPython38.repr
           20 (code_of_lnotab [] 1) 110 6 (Some []) eq_refl H1 H2 H3).
Defined.

(** [LOAD_CLOSURE 0] on a unit whose cell-variable table is [None]. *)
Lemma get_argvalue_missing_cell_table_witness :
  (co_cellvars (Code [] (Some []) (Some []) (Some []) None (Some []) [] 1) = None
   \/ co_freevars (Code [] (Some []) (Some []) (Some []) None (Some []) [] 1)
      = None)
  /\ get_argvalue CPython38.dis CPython38.repr 0
       (Code [] (Some []) (Some []) (Some []) None (Some []) [] 1) 135 (Some 0)
     = inl TypeError.
Proof.
  split; [left; reflexivity|].
  apply (get_argvalue_missing_cell_table CPython38.dis CPython38.repr).
  left; reflexivity.
Defined.

(** ** The jump target collector *)

Section FindLabels.

Variable dis : dis_module.

Lemma jump_destination_spec (ins : instr) (label : option Z) :
  jump_destination dis ins = Some label ->
  (instr_opcode ins ∈ hasjrel dis
   /\ exists oparg, instr_oparg ins = Some oparg
                   /\ label = Some (instr_offset ins + 2 + oparg))
  \/ (instr_opcode ins ∈ hasjabs dis /\ label = instr_oparg ins).
Proof.
  destruct ins as [[offset opcode] oparg]. unfold jump_destination.
  unfold instr_opcode, instr_oparg, instr_offset. simpl.
  case_bool_decide as Hrel.
  - destruct oparg as [a|]; [|done]. intros [= <-]. left. eauto.
  - case_bool_decide as Habs; [|done]. intros [= <-]. by right.
Qed.

(** The invariant of the loop of [find_labels]: the list only grows at its
    end, stays free of duplicates, holds what was there and what the rest of
    the scan finds, and after any number of further finds the labels known
    so far are an initial segment of the final list. *)
Lemma find_labels_loop_spec (ops : gen instr) :
  forall acc labels : list (option Z),
    find_labels_loop dis ops acc = inr labels ->
    NoDup acc ->
    acc `prefix_of` labels
    /\ NoDup labels
    /\ (forall l,
          l ∈ labels <-> l ∈ acc \/ l ∈ jump_destinations dis (yielded ops))
    /\ (forall n, exists m, forall l,
           l ∈ take m labels
           <-> l ∈ acc \/ l ∈ take n (jump_destinations dis (yielded ops))).
Proof.
  induction ops as [| e | [[offset opcode] oparg] ops IH]; intros acc labels.
  - simpl. intros [= <-] Hnd. split; [done|]. split; [done|]. split.
    + intros l. rewrite elem_of_nil. tauto.
    + intros n. exists (length acc). intros l.
      rewrite firstn_all, take_nil, elem_of_nil. tauto.
  - done.
  - assert (Hstep : forall label : option Z,
              find_labels_loop dis ops
                (if bool_decide (label ∈ acc) then acc else acc ++ [label])
              = inr labels ->
              NoDup acc ->
              acc `prefix_of` labels
              /\ NoDup labels
              /\ (forall l, l ∈ labels
                     <-> l ∈ acc
                         \/ l ∈ label :: jump_destinations dis (yielded ops))
              /\ (forall n, exists m, forall l,
                     l ∈ take m labels
                     <-> l ∈ acc
                         \/ l ∈ take n (label :: jump_destinations dis
                                                    (yielded ops)))).
    { intros label Hrun Hnd.
      set (acc' := if bool_decide (label ∈ acc) then acc else acc ++ [label])
        in Hrun.
      assert (Hnd' : NoDup acc').
      { unfold acc'. case_bool_decide; [done|].
        apply NoDup_app. split; [done|]. split; [|apply NoDup_singleton].
        intros x Hx ->%list_elem_of_singleton. done. }
      assert (Hacc' : forall l, l ∈ acc' <-> l ∈ acc \/ l = label).
      { intros l. unfold acc'. case_bool_decide.
        - split; [tauto|]. intros [?| ->]; done.
        - rewrite elem_of_app, list_elem_of_singleton. tauto. }
      assert (Hpre : acc `prefix_of` acc').
      { unfold acc'. case_bool_decide; [done|]. by apply prefix_app_r. }
      destruct (IH acc' labels Hrun Hnd') as (Hp & Hn & Hall & Hseg).
      split; [by etrans|]. split; [done|]. split.
      - intros l. rewrite Hall, Hacc', elem_of_cons. tauto.
      - intros [|n].
        + exists (length acc). intros l. simpl.
          destruct Hpre as [k1 Hk1]. destruct Hp as [k2 Hk2].
          rewrite Hk2, Hk1, <- app_assoc, take_app_length, elem_of_nil. tauto.
        + destruct (Hseg n) as [m Hm]. exists m. intros l.
          rewrite Hm, Hacc'. simpl. rewrite elem_of_cons. tauto. }
    simpl find_labels_loop. simpl yielded. unfold jump_destinations.
    simpl omap. fold (jump_destinations dis (yielded ops)).
    case_bool_decide as Hrel.
    + destruct oparg as [a|]; [|done]. apply Hstep.
    + case_bool_decide as Habs; [apply Hstep|apply IH].
Qed.

(** The collector reaches the end of the stream only when the decoder did
    not raise. *)
Lemma find_labels_loop_raised (ops : gen instr) :
  forall acc labels,
    find_labels_loop dis ops acc = inr labels -> raised ops = None.
Proof.
  induction ops as [| e | [[offset opcode] oparg] ops IH]; intros acc labels;
    simpl; [done|done|].
  case_bool_decide; [destruct oparg; [|done]|case_bool_decide]; apply IH.
Qed.

(** C6: the list [find_labels] returns has no duplicates; it comes from one
    scan of the instructions at the ascending offsets 0, 2, 4, ...; the
    labels found by any initial part of that scan are an initial segment of
    the list, so it is in order of first discovery; and each of its members
    is the destination [offset + 2 + oparg] of a relative jump or the
    operand of an absolute jump among the instructions of the unit. *)
Theorem find_labels_first_discovery (codeobj : code)
    (labels : list (option Z)) :
  find_labels dis codeobj = inr labels ->
  NoDup labels
  /\ instr_offset <$> yielded (unpack_op dis (co_code codeobj))
     = range_by_2 (length (co_code codeobj))
  /\ (forall n, exists m, forall l,
         l ∈ take m labels
         <-> l ∈ take n (jump_destinations dis
                           (yielded (unpack_op dis (co_code codeobj)))))
  /\ (forall l, l ∈ labels ->
       exists offset opcode oparg,
         (offset, opcode, oparg) ∈ yielded (unpack_op dis (co_code codeobj))
         /\ ((opcode ∈ hasjrel dis
              /\ exists a, oparg = Some a /\ l = Some (offset + 2 + a))
             \/ (opcode ∈ hasjabs dis /\ l = oparg))).
Proof.
  unfold find_labels. intros Hrun.
  destruct (find_labels_loop_spec _ _ _ Hrun (NoDup_nil_2 (A:=option Z)))
    as (_ & Hnd & Hall & Hseg).
  split; [done|]. split; [|split].
  - apply unpack_op_offsets. by eapply find_labels_loop_raised.
  - intros n. destruct (Hseg n) as [m Hm]. exists m. intros l.
    rewrite Hm, elem_of_nil. tauto.
  - intros l [Hl|Hl]%Hall; [by apply elem_of_nil in Hl|].
    apply list_elem_of_omap in Hl as ([[offset opcode] oparg] & Hin & Hdest).
    exists offset, opcode, oparg. split; [done|].
    by apply jump_destination_spec in Hdest.
Qed.

(** An instruction yielded with an opcode at or above [HAVE_ARGUMENT]
    carries an operand. *)
Lemma unpack_body_has_argument (bytecode : list byte) (i before after : Z)
    (ins : instr) :
  unpack_body dis bytecode i before = inr (ins, after) ->
  HAVE_ARGUMENT dis <= instr_opcode ins -> is_Some (instr_oparg ins).
Proof.
  unfold unpack_body. destruct (py_index bytecode i) as [e|b0]; [done|].
  destruct (Z.leb_spec (HAVE_ARGUMENT dis) (byte_val b0)) as [Hge|Hlt].
  - destruct (py_index bytecode (i + 1)); [done|].
    intros [= <- <-] _. by eexists.
  - intros [= <- <-]. unfold instr_opcode. simpl. lia.
Qed.

Lemma unpack_loop_has_argument (bytecode : list byte) (indices : list Z)
    (extended_arg : Z) (ins : instr) :
  ins ∈ yielded (unpack_loop dis bytecode indices extended_arg) ->
  HAVE_ARGUMENT dis <= instr_opcode ins -> is_Some (instr_oparg ins).
Proof.
  revert extended_arg. induction indices as [|i indices IH]; intros ea; simpl.
  - by intros ?%elem_of_nil.
  - destruct (unpack_body dis bytecode i ea) as [e|[ins' ea']] eqn:Hbody.
    + by intros ?%elem_of_nil.
    + simpl. intros [->|Hin]%elem_of_cons; [|by eapply IH].
      by eapply unpack_body_has_argument.
Qed.

Lemma find_labels_loop_returns (ops : gen instr) :
  raised ops = None ->
  (forall ins, ins ∈ yielded ops -> instr_opcode ins ∈ hasjrel dis ->
               is_Some (instr_oparg ins)) ->
  forall acc, exists labels, find_labels_loop dis ops acc = inr labels.
Proof.
  induction ops as [| e | [[offset opcode] oparg] ops IH]; simpl;
    intros Hraised Hargs acc.
  - by eexists.
  - done.
  - assert (Hrest : forall ins, ins ∈ yielded ops ->
              instr_opcode ins ∈ hasjrel dis -> is_Some (instr_oparg ins))
      by (intros ins Hin; apply Hargs; by apply list_elem_of_further).
    case_bool_decide as Hrel.
    + destruct (Hargs (offset, opcode, oparg)) as [a Ha];
        [apply list_elem_of_here|done|].
      unfold instr_oparg in Ha. simpl in Ha. subst oparg. by apply IH.
    + case_bool_decide; by apply IH.
Qed.

(** X26: on a stream of even length, with tables in which every relative
    jump takes an argument, [find_labels] raises nothing and returns a
    list. *)
Lemma find_labels_returns (codeobj : code) (k : nat) :
  length (co_code codeobj) = (2 * k)%nat ->
  (forall opcode, opcode ∈ hasjrel dis -> HAVE_ARGUMENT dis <= opcode) ->
  exists labels, find_labels dis codeobj = inr labels.
Proof.
  intros Hlen Hrel. unfold find_labels. apply find_labels_loop_returns.
  - by eapply unpack_op_even_length.
  - intros ins Hin Hop. eapply unpack_loop_has_argument; [exact Hin|].
    by apply Hrel.
Qed.

End FindLabels.

Lemma find_labels_first_discovery_witness :
  find_labels CPython38.dis code_with_jumps = inr [Some 6; Some 0]
  /\ NoDup [Some 6; Some 0]
  /\ instr_offset
       <$> yielded (unpack_op CPython38.dis (co_code code_with_jumps))
     = range_by_2 (length (co_code code_with_jumps))
  /\ (forall n, exists m, forall l,
         l ∈ take m [Some 6; Some 0]
         <-> l ∈ take n (jump_destinations CPython38.dis
                           (yielded (unpack_op CPython38.dis
                                       (co_code code_with_jumps)))))
  /\ (forall l, l ∈ [Some 6; Some 0] ->
       exists offset opcode oparg,
         (offset, opcode, oparg)
           ∈ yielded (unpack_op CPython38.dis (co_code code_with_jumps))
         /\ ((opcode ∈ hasjrel CPython38.dis
              /\ exists a, oparg = Some a /\ l = Some (offset + 2 + a))
             \/ (opcode ∈ hasjabs CPython38.dis /\ l = oparg))).
Proof.
  split; [reflexivity|].
  exact (find_labels_first_discovery CPython38.dis code_with_jumps
           [Some 6; Some 0] eq_refl).
Defined.

(** ** The disassembly engine *)

Section Disassemble.

Variable dis : dis_module.
Variable repr : pyobj -> string.

(** C8: a value without the [co_code] attribute is refused with a
    [TypeError] and nothing is printed: no table is decoded and no
    exception of a later stage can come first. *)
Theorem disassemble_rejects_non_code (fuel : nat) (c : pyobj) :
  has_co_code c = false ->
  disassemble dis repr fuel c = ([], Raised TypeError).
Proof.
  intros H. destruct fuel; simpl; by rewrite H.
Qed.

(** A resolved value that is a code object was taken from the constant
    pool. *)
Lemma get_argvalue_code (offset : Z) (c : code) (opcode : Z) (oparg : option Z)
    (argvalue : pyobj) :
  get_argvalue dis repr offset c opcode oparg = inr argvalue ->
  has_co_code argvalue = true ->
  exists constants, co_consts c = Some constants /\ argvalue ∈ constants.
Proof.
  unfold get_argvalue.
  destruct (py_concat _ _) as [e|cell_names]; [done|].
  repeat case_bool_decide;
    repeat match goal with
      | |- context [match ?x with _ => _ end] => destruct x eqn:?
      end;
    intros [= <-]; try done.
  intros Hcode. eexists. split; [done|].
  match goal with
  | H : py_index_opt _ _ = inr _ |- _ => revert H
  end.
  unfold py_index_opt, py_index. destruct oparg as [k|]; [|done].
  destruct (_ && _); [|done].
  destruct (_ !! _) eqn:Hk; [|done]. intros [= <-].
  by eapply list_elem_of_lookup_2.
Qed.

(** The instruction loop: it prints no header; its listing lines carry the
    offsets of the instructions decoded so far, in their order; and when it
    runs to the end of the stream it has printed one line for every
    instruction and collected the code objects among the resolved values,
    in the order of their lines. *)
Lemma disassemble_loop_spec (c : code) (linestarts : gmap Z Z)
    (labels : list (option Z)) (ops : gen instr) :
  forall (acc : list pyobj) (out : list event) (r : exn + list pyobj),
    disassemble_loop dis repr c linestarts labels ops acc = (out, r) ->
    Forall (fun e => is_header e = false) out
    /\ text_offset <$> texts out
       = instr_offset <$> take (length (texts out)) (yielded ops)
    /\ forall code_objects, r = inr code_objects ->
         raised ops = None
         /\ length (texts out) = length (yielded ops)
         /\ code_objects = acc ++ nested_units (texts out).
Proof.
  induction ops as [| e | [[offset opcode] oparg] ops IH]; intros acc out r;
    simpl.
  - intros [= <- <-]. split; [done|]. split; [done|].
    intros ? [= <-]. by rewrite app_nil_r.
  - intros [= <- <-]. done.
  - destruct (get_argvalue _ _ _ _ _ _) as [e|argvalue] eqn:Harg.
    { intros [= <- <-]. done. }
    destruct (py_index (opname dis) opcode) as [e|name].
    { intros [= <- <-]. done. }
    destruct (disassemble_loop _ _ _ _ _ _ _) as [out' r'] eqn:Hloop.
    intros [= <- <-].
    destruct (IH _ _ _ Hloop) as (Hhdr & Hoff & Hend).
    assert (Htexts : forall printed_blank : list event,
              printed_blank = [Blank] \/ printed_blank = [] ->
              forall t, texts ((printed_blank ++ [Text t]) ++ out')
                        = t :: texts out').
    { by intros ? [-> | ->] t. }
    match goal with
    | |- context [(?b ++ [Text ?t]) ++ out'] =>
        assert (Hb : b = [Blank] \/ b = []) by (destruct (_ && _); eauto);
        rewrite (Htexts b Hb t); revert Hb; generalize b
    end.
    intros b Hb. split; [|split].
    + apply Forall_app. split; [|done].
      destruct Hb as [-> | ->]; repeat constructor.
    + simpl length. cbn [take]. rewrite !fmap_cons. by rewrite Hoff.
    + intros code_objects ->. destruct (Hend _ eq_refl) as (Hr & Hlen & Hcodes).
      simpl. split; [done|]. split; [by rewrite Hlen|]. rewrite Hcodes.
      unfold nested_units at 2. simpl omap. fold (nested_units (texts out')).
      destruct argvalue; simpl; try done. by rewrite <- app_assoc.
Qed.

(** The code objects the loop collects sit in the constant pool. *)
Lemma disassemble_loop_code_objects (c : code) (linestarts : gmap Z Z)
    (labels : list (option Z)) (ops : gen instr) :
  forall (acc : list pyobj) (out : list event) (code_objects : list pyobj),
    disassemble_loop dis repr c linestarts labels ops acc
    = (out, inr code_objects) ->
    forall oc, oc ∈ code_objects ->
      oc ∈ acc
      \/ (has_co_code oc = true
          /\ exists constants, co_consts c = Some constants /\ oc ∈ constants).
Proof.
  induction ops as [| e | [[offset opcode] oparg] ops IH];
    intros acc out code_objects; simpl.
  - intros [= <- <-]. eauto.
  - done.
  - destruct (get_argvalue _ _ _ _ _ _) as [e|argvalue] eqn:Harg; [done|].
    destruct (py_index (opname dis) opcode) as [e|name]; [done|].
    destruct (disassemble_loop _ _ _ _ _ _ _) as [out' r'] eqn:Hloop.
    intros [= <- ->] oc Hoc.
    destruct (IH _ _ _ Hloop oc Hoc) as [Hacc|Hpool]; [|by right].
    destruct (has_co_code argvalue) eqn:Hcode; [|by left].
    apply elem_of_app in Hacc as [Hacc| ->%list_elem_of_singleton]; [by left|].
    right. split; [done|]. by eapply get_argvalue_code.
Qed.

(** The loop over the nested units, when every call returns: each unit is
    announced by its header and listed in full before the next one. *)
Lemma disassemble_children_returned (call : pyobj -> list event * outcome)
    (code_objects : list pyobj) (out : list event) :
  disassemble_children call code_objects = (out, Returned) ->
  out = flat_map (fun oc => Header oc :: (call oc).1) code_objects
  /\ Forall (fun oc => (call oc).2 = Returned) code_objects.
Proof.
  revert out. induction code_objects as [|oc rest IH]; intros out; simpl.
  - by intros [= <-].
  - destruct (call oc) as [out1 r1] eqn:Hcall. destruct r1; try done.
    destruct (disassemble_children call rest) as [out2 r2].
    intros [= <- ->]. destruct (IH _ eq_refl) as [-> Hall].
    split; [done|]. constructor; [by rewrite Hcall|done].
Qed.

Lemma disassemble_children_fuel (call : pyobj -> list event * outcome)
    (code_objects : list pyobj) :
  Forall (fun oc => (call oc).2 <> OutOfFuel) code_objects ->
  (disassemble_children call code_objects).2 <> OutOfFuel.
Proof.
  induction 1 as [|oc rest Hoc _ IH]; simpl; [done|].
  destruct (call oc) as [out1 r1]. simpl in Hoc. destruct r1; try done.
  by destruct (disassemble_children call rest).
Qed.

Lemma disassemble_code (fuel : nat) (co : code) :
  disassemble dis repr fuel (PyCode co)
  = match find_labels dis co with
    | inl e => ([], Raised e)
    | inr labels =>
        let '(out, r) :=
          disassemble_loop dis repr co (find_linestarts co) labels
            (unpack_op dis (co_code co)) [] in
        match r with
        | inl e => (out, Raised e)
        | inr code_objects =>
            let '(out', r') :=
              disassemble_children (disassemble_call dis repr fuel)
                code_objects in
            (out ++ out', r')
        end
    end.
Proof. by destruct fuel. Qed.

Lemma nesting_depth_constant (co : code) (constants : list pyobj) (oc : pyobj) :
  co_consts co = Some constants -> oc ∈ constants ->
  (S (nesting_depth oc) <= nesting_depth (PyCode co))%nat.
Proof.
  destruct co as [? consts ? ? ? ? ? ?]. simpl. intros -> Hin.
  apply le_n_S. induction Hin as [|? ? ? _ IH]; simpl; lia.
Qed.

(** A budget of one less than the nesting depth is enough: the model does
    not stop for want of fuel. *)
Lemma disassemble_fuel_enough (fuel : nat) :
  forall c, (nesting_depth c <= S fuel)%nat ->
            (disassemble dis repr fuel c).2 <> OutOfFuel.
Proof.
  assert (Hstep : forall fuel co,
            (nesting_depth (PyCode co) <= S fuel)%nat ->
            Forall (fun oc => (nesting_depth oc <= fuel)%nat ->
                              has_co_code oc = true ->
                              (disassemble_call dis repr fuel oc).2 <> OutOfFuel)
                   (default [] (co_consts co)) ->
            (disassemble dis repr fuel (PyCode co)).2 <> OutOfFuel).
  { intros f co Hdepth Hcalls. rewrite disassemble_code.
    destruct (find_labels dis co) as [e|labels]; [done|].
    destruct (disassemble_loop _ _ _ _ _ _ _) as [out [e|code_objects]]
      eqn:Hloop; [done|].
    destruct (disassemble_children _ _) as [out' r'] eqn:Hchildren.
    simpl. change r' with (out', r').2. rewrite <- Hchildren.
    apply disassemble_children_fuel, Forall_forall. intros oc Hoc.
    destruct (disassemble_loop_code_objects _ _ _ _ _ _ _ Hloop oc Hoc)
      as [Hnil|(Hcode & constants & Hpool & Hin)];
      [by apply elem_of_nil in Hnil|].
    rewrite Hpool in Hcalls. simpl in Hcalls.
    rewrite Forall_forall in Hcalls. apply Hcalls; [done| |done].
    pose proof (nesting_depth_constant co constants oc Hpool Hin). lia. }
  induction fuel as [|fuel IH]; intros [| | | | |co] Hdepth; try done.
  - apply Hstep; [done|]. apply Forall_forall. intros [] _ Hd Hc; try done.
    simpl in Hd. destruct c as [? [?|] ? ? ? ? ? ?]; simpl in Hd; lia.
  - apply Hstep; [done|]. apply Forall_forall. intros oc _ Hd _.
    simpl. by apply IH.
Qed.

(** What the loop over the nested units prints starts with a header. *)
Lemma disassemble_children_header (call : pyobj -> list event * outcome)
    (code_objects : list pyobj) :
  (disassemble_children call code_objects).1 = []
  \/ exists oc rest,
      (disassemble_children call code_objects).1 = Header oc :: rest.
Proof.
  destruct code_objects as [|oc rest]; [by left|]. right. simpl.
  destruct (call oc) as [out1 r1].
  destruct r1; [destruct (disassemble_children call rest)|..]; simpl; eauto.
Qed.

(** X28: however a call ends, what it printed begins with the lines of the
    unit itself, at an initial segment of the offsets 0, 2, 4, ...; anything
    after them begins with the header of a nested unit and comes only once
    every instruction has its line. *)
Lemma disassemble_listing_first (fuel : nat) (co : code) (out : list event)
    (r : outcome) :
  disassemble dis repr fuel (PyCode co) = (out, r) ->
  exists listing rest,
    out = listing ++ rest
    /\ Forall (fun e => is_header e = false) listing
    /\ text_offset <$> texts listing
       = take (length (texts listing)) (range_by_2 (length (co_code co)))
    /\ (rest = []
        \/ (length (texts listing) = length (range_by_2 (length (co_code co)))
            /\ exists oc rest', rest = Header oc :: rest')).
Proof.
  rewrite disassemble_code.
  destruct (find_labels dis co) as [e|labels].
  { intros [= <- <-]. exists [], []. repeat split; eauto. }
  destruct (disassemble_loop _ _ _ _ _ _ _) as [listing r0] eqn:Hloop.
  destruct (disassemble_loop_spec _ _ _ _ _ _ _ Hloop) as (Hhdr & Hoff & Hend).
  assert (Hpre : text_offset <$> texts listing
                 = take (length (texts listing))
                     (range_by_2 (length (co_code co)))).
  { rewrite Hoff, fmap_take. unfold unpack_op. rewrite unpack_loop_offsets.
    rewrite take_take. f_equal.
    assert (Hle : (length (texts listing)
                   <= length (yielded (unpack_op dis (co_code co))))%nat).
    { rewrite <- (length_fmap text_offset), Hoff, length_fmap, length_take.
      lia. }
    unfold unpack_op in Hle. lia. }
  destruct r0 as [e|code_objects].
  { intros [= <- <-]. exists listing, []. rewrite app_nil_r. eauto. }
  destruct (Hend _ eq_refl) as (Hraised & Hlen & _).
  pose proof (disassemble_children_header (disassemble_call dis repr fuel)
                code_objects) as Hchildren.
  destruct (disassemble_children _ _) as [out' r']. intros [= <- <-].
  exists listing, out'. split; [done|]. split; [done|]. split; [done|].
  simpl in Hchildren. destruct Hchildren as [->|Hheader]; [by left|right].
  split; [|done]. rewrite Hlen.
  rewrite <- (length_fmap instr_offset), unpack_op_offsets by done. done.
Qed.

(** When [disassemble] returns, what it printed is the listing of the
    unit itself, one line per instruction at the offsets 0, 2, 4, ... in
    ascending order and without any header, followed, for each code object
    among the resolved values in the order of their lines, by its header
    and its complete listing. The budget of the model suffices whenever it
    covers the nesting depth. *)
Theorem disassemble_listing_order (fuel : nat) (co : code) :
  (nesting_depth (PyCode co) <= S fuel)%nat ->
  (disassemble dis repr fuel (PyCode co)).2 <> OutOfFuel
  /\ forall out,
       disassemble dis repr fuel (PyCode co) = (out, Returned) ->
       exists listing,
         out = listing
               ++ flat_map
                    (fun oc =>
                       Header oc :: (disassemble_call dis repr fuel oc).1)
                    (nested_units (texts listing))
         /\ Forall (fun e => is_header e = false) listing
         /\ text_offset <$> texts listing
            = instr_offset <$> yielded (unpack_op dis (co_code co))
         /\ text_offset <$> texts listing = range_by_2 (length (co_code co))
         /\ StronglySorted Z.lt (text_offset <$> texts listing)
         /\ Forall (fun oc => (disassemble_call dis repr fuel oc).2 = Returned)
              (nested_units (texts listing)).
Proof.
  intros Hdepth. split; [by apply disassemble_fuel_enough|].
  intros out. rewrite disassemble_code.
  destruct (find_labels dis co) as [e|labels]; [done|].
  destruct (disassemble_loop _ _ _ _ _ _ _) as [listing [e|code_objects]]
    eqn:Hloop; [done|].
  destruct (disassemble_children _ _) as [out' r'] eqn:Hchildren.
  intros [= <- ->].
  destruct (disassemble_loop_spec _ _ _ _ _ _ _ Hloop) as (Hhdr & Hoff & Hend).
  destruct (Hend _ eq_refl) as (Hraised & Hlen & Hcodes). simpl in Hcodes.
  subst code_objects.
  destruct (disassemble_children_returned _ _ _ Hchildren) as [-> Hret].
  rewrite Hlen, firstn_all in Hoff.
  assert (Hrange : text_offset <$> texts listing
                   = range_by_2 (length (co_code co))).
  { rewrite Hoff. by apply unpack_op_offsets. }
  exists listing. repeat split; try done.
  rewrite Hrange. apply range_by_2_ascending.
Qed.




End Disassemble.

(** A string is not a code object. *)
Lemma disassemble_rejects_non_code_witness :
  has_co_code (PyStr "source.py") = false
  /\ disassemble CPython38.dis CPython38.repr 3 (PyStr "source.py")
     = ([], Raised TypeError).
Proof.
  split; [reflexivity|].
  exact (disassemble_rejects_non_code CPython38.dis CPython38.repr 3
           (PyStr "source.py") eq_refl).
Defined.



(** On that unit the call returns; the five lines of the parent come first,
    then the header and the two lines of [nested_unit 1], then those of
    [nested_unit 2]. *)
Example disassemble_parent_unit :
  (disassemble CPython38.dis CPython38.repr 1 (PyCode parent_unit)).2 = Returned
  /\ is_header
       <$> (disassemble CPython38.dis CPython38.repr 1 (PyCode parent_unit)).1
     = [false; false; false; false; false; true; false; false; true; false;
        false]
  /\ filter (fun e => is_header e = true)
       (disassemble CPython38.dis CPython38.repr 1 (PyCode parent_unit)).1
     = [Header (nested_unit 1); Header (nested_unit 2)]
  /\ text_offset
       <$> texts (disassemble CPython38.dis CPython38.repr 1
                    (PyCode parent_unit)).1
     = [0; 2; 4; 6; 8; 0; 2; 0; 2].
Proof.
  repeat split; vm_compute; reflexivity.
Qed.

(** * Further properties *)

(** ** More on the instruction decoder *)

Section UnpackOpShape.

Variable dis : dis_module.

(** What one completed iteration yields, read off the stream. *)
Lemma unpack_body_yield (bytecode : list byte) (i before after : Z)
    (ins : instr) :
  unpack_body dis bytecode i before = inr (ins, after) ->
  instr_offset ins = i
  /\ exists b0,
      py_index bytecode i = inr b0
      /\ instr_opcode ins = byte_val b0
      /\ ((byte_val b0 < HAVE_ARGUMENT dis
           /\ instr_oparg ins = None /\ after = before)
          \/ (HAVE_ARGUMENT dis <= byte_val b0
              /\ exists b1,
                  py_index bytecode (i + 1) = inr b1
                  /\ instr_oparg ins = Some (Z.lor (byte_val b1) before)
                  /\ after = (if byte_val b0 =? EXTENDED_ARG dis
                              then Z.shiftl (Z.lor (byte_val b1) before) 8
                              else 0))).
Proof.
  unfold unpack_body. destruct (py_index bytecode i) as [e|b0]; [done|].
  destruct (Z.leb_spec (HAVE_ARGUMENT dis) (byte_val b0)) as [Hge|Hlt].
  - destruct (py_index bytecode (i + 1)) as [e|b1]; [done|].
    intros [= <- <-]. split; [done|]. exists b0. split; [done|].
    split; [done|]. right. split; [done|]. by exists b1.
  - intros [= <- <-]. split; [done|]. exists b0. split; [done|].
    split; [done|]. left. done.
Qed.

(** A property of every completed iteration holds of every instruction
    yielded, whatever accumulator the loop started from. *)
Lemma unpack_loop_yielded_ind (bytecode : list byte)
    (Inv : Z -> Prop) (P : instr -> Prop) :
  (forall i before after ins,
      Inv before ->
      unpack_body dis bytecode i before = inr (ins, after) ->
      P ins /\ Inv after) ->
  forall indices extended_arg,
    Inv extended_arg ->
    Forall P (yielded (unpack_loop dis bytecode indices extended_arg)).
Proof.
  intros Hstep. induction indices as [|i indices IH]; intros ea Hea; simpl.
  - constructor.
  - destruct (unpack_body dis bytecode i ea) as [e|[ins ea']] eqn:Hbody;
      [constructor|].
    destruct (Hstep _ _ _ _ Hea Hbody) as [HP Hea']. simpl.
    constructor; [done|by apply IH].
Qed.

(** X2: every instruction yielded sits at an offset of the stream, its
    opcode is the byte there, and it has no operand exactly when the opcode
    is below [HAVE_ARGUMENT]. *)
Theorem unpack_op_instruction_shape (bytecode : list byte)
    (offset opcode : Z) (oparg : option Z) :
  (offset, opcode, oparg) ∈ yielded (unpack_op dis bytecode) ->
  (exists b0, py_index bytecode offset = inr b0 /\ opcode = byte_val b0)
  /\ 0 <= opcode < 256
  /\ (oparg = None <-> opcode < HAVE_ARGUMENT dis).
Proof.
  intros Hin.
  assert (Hall : Forall
    (fun ins =>
       (exists b0, py_index bytecode (instr_offset ins) = inr b0
                   /\ instr_opcode ins = byte_val b0)
       /\ 0 <= instr_opcode ins < 256
       /\ (instr_oparg ins = None <-> instr_opcode ins < HAVE_ARGUMENT dis))
    (yielded (unpack_op dis bytecode))).
  { apply unpack_loop_yielded_ind with (Inv := fun _ => True); [|done].
    intros i before after ins _ Hbody. split; [|done].
    destruct (unpack_body_yield _ _ _ _ _ Hbody)
      as (-> & b0 & Hb0 & Hop & Hcase).
    split; [by exists b0|]. rewrite Hop.
    split; [apply byte_val_range|].
    destruct Hcase as [(Hlt & -> & _)|(Hge & b1 & _ & -> & _)].
    - done.
    - split; [done|lia]. }
  rewrite Forall_forall in Hall. exact (Hall _ Hin).
Qed.

Lemma accumulator_ok_shiftl (x : Z) : 0 <= x -> accumulator_ok (Z.shiftl x 8).
Proof.
  intros Hx. split; [by apply Z.shiftl_nonneg|].
  change 255 with (Z.ones 8). rewrite Z.land_ones by lia.
  rewrite Z.shiftl_mul_pow2 by lia. apply Z.mod_mul. lia.
Qed.

Lemma lor_byte_accumulator (b : byte) (extended_arg : Z) :
  accumulator_ok extended_arg ->
  0 <= Z.lor (byte_val b) extended_arg
  /\ Z.land (Z.lor (byte_val b) extended_arg) 255 = byte_val b.
Proof.
  intros [Hnn Hlow]. pose proof (byte_val_range b) as Hb. split.
  - apply Z.lor_nonneg. lia.
  - rewrite Z.land_lor_distr_l, Hlow, Z.lor_0_r.
    change 255 with (Z.ones 8). rewrite Z.land_ones by lia.
    apply Z.mod_small. lia.
Qed.

(** X3: an operand is never negative, and its low eight bits are the byte
    that follows the opcode in the stream: extensions only add higher
    bits. *)
Theorem unpack_op_operand_low_byte (bytecode : list byte)
    (offset opcode oparg : Z) :
  (offset, opcode, Some oparg) ∈ yielded (unpack_op dis bytecode) ->
  0 <= oparg
  /\ exists b1, py_index bytecode (offset + 1) = inr b1
                /\ Z.land oparg 255 = byte_val b1.
Proof.
  intros Hin.
  assert (Hall : Forall
    (fun ins => forall a, instr_oparg ins = Some a ->
       0 <= a
       /\ exists b1, py_index bytecode (instr_offset ins + 1) = inr b1
                     /\ Z.land a 255 = byte_val b1)
    (yielded (unpack_op dis bytecode))).
  { apply unpack_loop_yielded_ind with (Inv := accumulator_ok); [|done].
    intros i before after ins Hinv Hbody.
    destruct (unpack_body_yield _ _ _ _ _ Hbody)
      as (-> & b0 & Hb0 & Hop & Hcase).
    destruct Hcase as [(_ & -> & ->)|(_ & b1 & Hb1 & -> & ->)]; [done|].
    destruct (lor_byte_accumulator b1 before Hinv) as [Hnn Hlow].
    split.
    - intros a [= <-]. split; [done|]. by exists b1.
    - destruct (_ =? _); [by apply accumulator_ok_shiftl|done]. }
  rewrite Forall_forall in Hall. exact (Hall _ Hin oparg eq_refl).
Qed.

End UnpackOpShape.

Section UnpackOpStreams.

Variable dis : dis_module.

(** X1: a stream of [2 k] bytes is decoded without an exception into
    exactly [k] instructions, at the offsets 0, 2, ..., 2 k - 2. *)
Theorem unpack_op_even_stream (bytecode : list byte) (k : nat) :
  length bytecode = (2 * k)%nat ->
  raised (unpack_op dis bytecode) = None
  /\ length (yielded (unpack_op dis bytecode)) = k
  /\ instr_offset <$> yielded (unpack_op dis bytecode)
     = (fun j : nat => 2 * Z.of_nat j) <$> seq 0 k.
Proof.
  intros Hlen.
  pose proof (unpack_op_even_length dis bytecode k Hlen) as Hraised.
  pose proof (unpack_op_offsets dis bytecode Hraised) as Hoff.
  rewrite Hlen, range_by_2_even in Hoff.
  split; [done|]. split; [|done].
  rewrite <- (length_fmap instr_offset), Hoff, length_fmap. apply length_seq.
Qed.

Lemma unpack_loop_without_extension (bytecode : list byte) :
  forall indices,
    Forall (fun ins => instr_opcode ins <> EXTENDED_ARG dis)
      (yielded (unpack_loop dis bytecode indices 0)) ->
    Forall (fun ins => forall a, instr_oparg ins = Some a ->
              exists b1, py_index bytecode (instr_offset ins + 1) = inr b1
                         /\ a = byte_val b1)
      (yielded (unpack_loop dis bytecode indices 0)).
Proof.
  induction indices as [|i indices IH]; simpl; [constructor|].
  destruct (unpack_body dis bytecode i 0) as [e|[ins ea']] eqn:Hbody;
    [constructor|].
  simpl. intros [Hne Hrest]%Forall_cons.
  destruct (unpack_body_yield _ _ _ _ _ _ Hbody)
    as (Hoff & b0 & Hb0 & Hop & Hcase).
  assert (Hea : ea' = 0).
  { destruct Hcase as [(_ & _ & ->)|(_ & b1 & _ & _ & ->)]; [done|].
    rewrite <- Hop.
    by destruct (Z.eqb_spec (instr_opcode ins) (EXTENDED_ARG dis)). }
  subst ea'. constructor; [|by apply IH].
  destruct Hcase as [(_ & -> & _)|(_ & b1 & Hb1 & -> & _)]; [done|].
  intros a [= <-]. exists b1. by rewrite Hoff, Z.lor_0_r.
Qed.

(** X4: in a stream that holds no extended-argument instruction, every
    operand is the byte that follows its opcode, a value from 0 to 255. *)
Theorem unpack_op_without_extension (bytecode : list byte)
    (offset opcode oparg : Z) :
  (forall ins, ins ∈ yielded (unpack_op dis bytecode) ->
               instr_opcode ins <> EXTENDED_ARG dis) ->
  (offset, opcode, Some oparg) ∈ yielded (unpack_op dis bytecode) ->
  0 <= oparg < 256
  /\ exists b1, py_index bytecode (offset + 1) = inr b1 /\ oparg = byte_val b1.
Proof.
  intros Hnone Hin.
  pose proof (unpack_loop_without_extension bytecode
                (range_by_2 (length bytecode))) as Hall.
  rewrite !Forall_forall in Hall.
  destruct (Hall Hnone _ Hin oparg eq_refl) as (b1 & Hb1 & ->).
  split; [apply byte_val_range|]. by exists b1.
Qed.

Lemma unpack_loop_extension_step (bytecode : list byte) :
  forall indices extended_arg n ins1 ins2 a1 a2,
    yielded (unpack_loop dis bytecode indices extended_arg) !! n = Some ins1 ->
    yielded (unpack_loop dis bytecode indices extended_arg) !! S n
    = Some ins2 ->
    instr_opcode ins1 = EXTENDED_ARG dis ->
    instr_oparg ins1 = Some a1 ->
    instr_oparg ins2 = Some a2 ->
    exists b1, py_index bytecode (instr_offset ins2 + 1) = inr b1
               /\ a2 = Z.lor (byte_val b1) (Z.shiftl a1 8).
Proof.
  induction indices as [|i indices IH];
    intros ea n ins1 ins2 a1 a2; simpl; [done|].
  destruct (unpack_body dis bytecode i ea) as [e|[ins ea']] eqn:Hbody; [done|].
  destruct n as [|n]; simpl; [|by apply IH].
  intros [= ->] Hnext Hop Ha1 Ha2.
  destruct (unpack_body_yield _ _ _ _ _ _ Hbody)
    as (_ & b0 & _ & Hop1 & Hcase).
  assert (Hea : ea' = Z.shiftl a1 8).
  { destruct Hcase as [(_ & Hnone & _)|(_ & b1 & _ & Hsome & ->)];
      [congruence|].
    rewrite <- Hop1, Hop, Z.eqb_refl. congruence. }
  subst ea'. destruct indices as [|i2 indices]; [done|]. simpl in Hnext.
  destruct (unpack_body dis bytecode i2 _) as [e|[ins' ea'']] eqn:Hbody2;
    [done|].
  simpl in Hnext. injection Hnext as ->.
  destruct (unpack_body_yield _ _ _ _ _ _ Hbody2)
    as (-> & b0' & _ & _ & [(_ & Hnone & _)|(_ & b1 & Hb1 & Hsome & _)]);
    [congruence|].
  exists b1. split; [done|]. congruence.
Qed.

(** X6: the instruction that follows an extended-argument instruction with
    operand [a1] has, if it takes an argument, the operand made of its own
    byte and of [a1] shifted left by eight bits, however long the chain of
    extensions before it. *)
Theorem unpack_op_extension_step (bytecode : list byte) (n : nat)
    (offset1 a1 offset2 opcode2 a2 : Z) :
  yielded (unpack_op dis bytecode) !! n
  = Some (offset1, EXTENDED_ARG dis, Some a1) ->
  yielded (unpack_op dis bytecode) !! S n = Some (offset2, opcode2, Some a2) ->
  exists b1, py_index bytecode (offset2 + 1) = inr b1
             /\ a2 = Z.lor (byte_val b1) (Z.shiftl a1 8).
Proof.
  intros H1 H2.
  by apply (unpack_loop_extension_step bytecode _ _ _ _ _ a1 a2 H1 H2).
Qed.

Lemma unpack_loop_app (bytecode : list byte) (indices more : list Z) :
  forall extended_arg,
    raised (unpack_loop dis bytecode indices extended_arg) = None ->
    exists extended_arg',
      yielded (unpack_loop dis bytecode (indices ++ more) extended_arg)
      = yielded (unpack_loop dis bytecode indices extended_arg)
        ++ yielded (unpack_loop dis bytecode more extended_arg').
Proof.
  induction indices as [|i indices IH]; intros ea; simpl.
  - intros _. by exists ea.
  - destruct (unpack_body dis bytecode i ea) as [e|[ins ea']]; [done|].
    simpl. intros Hr. destruct (IH ea' Hr) as [ea'' ->]. by exists ea''.
Qed.

Lemma unpack_loop_chunks (bytecode extra : list byte) (indices : list Z) :
  Forall (fun i => 0 <= i /\ i + 1 < Z.of_nat (length bytecode)) indices ->
  forall extended_arg,
    unpack_loop dis (bytecode ++ extra) indices extended_arg
    = unpack_loop dis bytecode indices extended_arg.
Proof.
  induction 1 as [|i indices [Hi Hlen] _ IH]; intros ea; simpl; [done|].
  destruct (unpack_body_chunk dis bytecode extra i ea Hi Hlen) as [_ ->].
  destruct (unpack_body dis bytecode i ea) as [e|[ins ea']]; [done|].
  by rewrite IH.
Qed.

Lemma div2_add_double (k n : nat) :
  Nat.div2 (2 * k + n) = (k + Nat.div2 n)%nat.
Proof.
  induction k as [|k IH]; [done|].
  replace (2 * S k + n)%nat with (S (S (2 * k + n))) by lia.
  change (Nat.div2 (S (S (2 * k + n)))) with (S (Nat.div2 (2 * k + n))).
  rewrite IH. lia.
Qed.

(** X5: the instructions of a stream of even length are decoded the same
    whatever bytes follow it: they are an initial segment of the
    instructions of any longer stream. *)
Theorem unpack_op_prefix (bytecode extra : list byte) (k : nat) :
  length bytecode = (2 * k)%nat ->
  yielded (unpack_op dis bytecode)
    `prefix_of` yielded (unpack_op dis (bytecode ++ extra)).
Proof.
  intros Hlen. unfold unpack_op.
  assert (Hsplit : exists more,
            range_by_2 (length (bytecode ++ extra))
            = range_by_2 (length bytecode) ++ more).
  { rewrite length_app, Hlen. unfold range_by_2.
    replace (S (2 * k + length extra)) with (2 * k + S (length extra))%nat
      by lia.
    rewrite div2_add_double, Nat.div2_succ_double, seq_app, fmap_app.
    by eexists. }
  destruct Hsplit as [more ->].
  pose proof (range_by_2_chunks k) as Hfa. rewrite <- Hlen in Hfa.
  destruct (unpack_loop_app (bytecode ++ extra) (range_by_2 (length bytecode))
              more 0) as [ea' ->].
  - rewrite unpack_loop_chunks by done.
    by apply unpack_op_even_length with (k := k).
  - rewrite unpack_loop_chunks by done. by eexists.
Qed.

End UnpackOpStreams.

Lemma unpack_op_even_stream_witness :
  length (co_code code_with_jumps) = (2 * 4)%nat
  /\ raised (unpack_op CPython38.dis (co_code code_with_jumps)) = None
  /\ length (yielded (unpack_op CPython38.dis (co_code code_with_jumps)))
     = 4%nat
  /\ instr_offset
       <$> yielded (unpack_op CPython38.dis (co_code code_with_jumps))
     = [0; 2; 4; 6].
Proof.
  split; [reflexivity|].
  exact (unpack_op_even_stream CPython38.dis (co_code code_with_jumps) 4
           eq_refl).
Defined.

Lemma unpack_op_instruction_shape_witness :
  (4, 100, Some 0x010203) ∈ yielded (unpack_op CPython38.dis extended_stream)
  /\ (exists b0, py_index extended_stream 4 = inr b0 /\ 100 = byte_val b0)
  /\ 0 <= 100 < 256
  /\ (Some 0x010203 = None <-> 100 < HAVE_ARGUMENT CPython38.dis).
Proof.
  assert (Hin : (4, 100, Some 0x010203)
                  ∈ yielded (unpack_op CPython38.dis extended_stream))
    by (apply (bool_decide_unpack _); exact I).
  split; [exact Hin|].
  exact (unpack_op_instruction_shape CPython38.dis extended_stream 4 100
           (Some 0x010203) Hin).
Defined.

Lemma unpack_op_operand_low_byte_witness :
  (4, 100, Some 0x010203) ∈ yielded (unpack_op CPython38.dis extended_stream)
  /\ 0 <= 0x010203
  /\ exists b1, py_index extended_stream (4 + 1) = inr b1
                /\ Z.land 0x010203 255 = byte_val b1.
Proof.
  assert (Hin : (4, 100, Some 0x010203)
                  ∈ yielded (unpack_op CPython38.dis extended_stream))
    by (apply (bool_decide_unpack _); exact I).
  split; [exact Hin|].
  exact (unpack_op_operand_low_byte CPython38.dis extended_stream 4 100
           0x010203 Hin).
Defined.

Lemma unpack_op_without_extension_witness :
  (forall ins,
      ins ∈ yielded (unpack_op CPython38.dis (co_code code_with_jumps)) ->
      instr_opcode ins <> EXTENDED_ARG CPython38.dis)
  /\ (2, 114, Some 6)
       ∈ yielded (unpack_op CPython38.dis (co_code code_with_jumps))
  /\ 0 <= 6 < 256
  /\ exists b1, py_index (co_code code_with_jumps) (2 + 1) = inr b1
                /\ 6 = byte_val b1.
Proof.
  assert (Hnone : forall ins,
            ins ∈ yielded (unpack_op CPython38.dis (co_code code_with_jumps)) ->
            instr_opcode ins <> EXTENDED_ARG CPython38.dis).
  { apply Forall_forall. repeat constructor; discriminate. }
  assert (Hin : (2, 114, Some 6)
                  ∈ yielded (unpack_op CPython38.dis (co_code code_with_jumps)))
    by (apply (bool_decide_unpack _); exact I).
  split; [exact Hnone|]. split; [exact Hin|].
  exact (unpack_op_without_extension CPython38.dis (co_code code_with_jumps)
           2 114 6 Hnone Hin).
Defined.

Lemma unpack_op_extension_step_witness :
  yielded (unpack_op CPython38.dis extended_stream) !! 1%nat
  = Some (2, EXTENDED_ARG CPython38.dis, Some 0x0102)
  /\ yielded (unpack_op CPython38.dis extended_stream) !! 2%nat
     = Some (4, 100, Some 0x010203)
  /\ exists b1, py_index extended_stream (4 + 1) = inr b1
                /\ 0x010203 = Z.lor (byte_val b1) (Z.shiftl 0x0102 8).
Proof.
  split; [reflexivity|]. split; [reflexivity|].
  exact (unpack_op_extension_step CPython38.dis extended_stream 1 2 0x0102 4
           100 0x010203 eq_refl eq_refl).
Defined.

Lemma unpack_op_prefix_witness :
  length [Byte.x64; Byte.x00] = (2 * 1)%nat
  /\ yielded (unpack_op CPython38.dis [Byte.x64; Byte.x00])
       `prefix_of` yielded (unpack_op CPython38.dis
                              ([Byte.x64; Byte.x00] ++ [Byte.x53])).
Proof.
  split; [reflexivity|].
  exact (unpack_op_prefix CPython38.dis [Byte.x64; Byte.x00] [Byte.x53] 1
           eq_refl).
Defined.

(** ** More on the line table *)

Lemma lnotab_pairs_cons {A : Type} (x y : A) (t : list A) :
  zip (slice_0_2 (x :: y :: t)) (slice_1_2 (x :: y :: t))
  = (x, y) :: zip (slice_0_2 t) (slice_1_2 t).
Proof. by destruct t. Qed.

Lemma signed_line_incr_range (b : byte) : -128 <= signed_line_incr b <= 127.
Proof.
  unfold signed_line_incr. pose proof (byte_val_range b).
  destruct (Z.leb_spec 128 (byte_val b)); lia.
Qed.

Lemma linestarts_body_totals (byte line : Z) (d : gmap Z Z)
    (p : Byte.byte * Byte.byte) :
  linestarts_body (byte, line, d) p
  = (byte + byte_val p.1, line + signed_line_incr p.2,
     <[byte + byte_val p.1 := line + signed_line_incr p.2]> d).
Proof. done. Qed.

(** The state the loop of [find_linestarts] ends in. *)
Lemma linestarts_fold_end (pairs : list (byte * byte)) :
  forall (byte line : Z) (d : gmap Z Z),
    d !! byte = Some line ->
    exists d',
      foldl linestarts_body (byte, line, d) pairs
      = (byte + byte_total pairs, line + line_total pairs, d')
      /\ d' !! (byte + byte_total pairs) = Some (line + line_total pairs).
Proof.
  induction pairs as [|p pairs IH]; intros byte line d Hd.
  - exists d. simpl. by rewrite !Z.add_0_r.
  - cbn [foldl]. rewrite linestarts_body_totals.
    destruct (IH (byte + byte_val p.1) (line + signed_line_incr p.2)
                (<[byte + byte_val p.1 := line + signed_line_incr p.2]> d))
      as (d' & Hfold & Hlook); [apply lookup_insert_eq|].
    exists d'. rewrite Hfold. cbn [byte_total line_total foldr].
    fold (byte_total pairs). fold (line_total pairs).
    rewrite !Z.add_assoc. split; [done|].
    by rewrite <- !Z.add_assoc in Hlook |- *.
Qed.

(** X7: the mapping sends the sum of all byte increments to the first line
    plus the sum of all signed line increments: whatever was overwritten on
    the way, the entry of the last pair is the one that stands. *)
Theorem find_linestarts_last_entry (codeobj : code) :
  find_linestarts codeobj !! byte_total (lnotab_pairs codeobj)
  = Some (co_firstlineno codeobj + line_total (lnotab_pairs codeobj)).
Proof.
  unfold find_linestarts. fold (lnotab_pairs codeobj).
  destruct (linestarts_fold_end (lnotab_pairs codeobj) 0
              (co_firstlineno codeobj) {[ 0 := co_firstlineno codeobj ]})
    as (d' & -> & Hlook); [apply lookup_singleton_eq|].
  exact Hlook.
Qed.

Lemma lnotab_pairs_trailing {A : Type} (k : nat) :
  forall (l : list A) (b : A),
    length l = (2 * k)%nat ->
    zip (slice_0_2 (l ++ [b])) (slice_1_2 (l ++ [b]))
    = zip (slice_0_2 l) (slice_1_2 l).
Proof.
  induction k as [|k IH]; intros [|x [|y t]] b Hlen; simpl in Hlen;
    try lia; [done|].
  change ((x :: y :: t) ++ [b]) with (x :: y :: (t ++ [b])).
  rewrite !lnotab_pairs_cons, IH; [done|lia].
Qed.

Lemma lnotab_pairs_snoc {A : Type} (k : nat) :
  forall (l : list A) (b c : A),
    length l = (2 * k)%nat ->
    zip (slice_0_2 (l ++ [b; c])) (slice_1_2 (l ++ [b; c]))
    = zip (slice_0_2 l) (slice_1_2 l) ++ [(b, c)].
Proof.
  induction k as [|k IH]; intros [|x [|y t]] b c Hlen; simpl in Hlen;
    try lia; [done|].
  change ((x :: y :: t) ++ [b; c]) with (x :: y :: (t ++ [b; c])).
  rewrite !lnotab_pairs_cons, IH; [done|lia].
Qed.

(** One more pair at the end of a table: [find_linestarts] writes one more
    entry, at the running offset and line the table had reached. *)
Lemma find_linestarts_snoc bytecode constants names varnames cellvars freevars
    (lnotab : list byte) (byte_incr line_incr : byte) (firstlineno : Z)
    (k : nat) :
  length lnotab = (2 * k)%nat ->
  find_linestarts
    (Code bytecode constants names varnames cellvars freevars
       (lnotab ++ [byte_incr; line_incr]) firstlineno)
  = <[byte_total (zip (slice_0_2 lnotab) (slice_1_2 lnotab))
      + byte_val byte_incr
      := firstlineno + line_total (zip (slice_0_2 lnotab) (slice_1_2 lnotab))
         + signed_line_incr line_incr]>
      (find_linestarts
         (Code bytecode constants names varnames cellvars freevars
            lnotab firstlineno)).
Proof.
  intros Hlen. unfold find_linestarts. simpl co_lnotab. simpl co_firstlineno.
  rewrite (lnotab_pairs_snoc k) by done. rewrite foldl_app.
  destruct (linestarts_fold_end (zip (slice_0_2 lnotab) (slice_1_2 lnotab)) 0
              firstlineno {[ 0 := firstlineno ]})
    as (d' & -> & _); [apply lookup_singleton_eq|].
  cbn [foldl]. rewrite linestarts_body_totals. simpl. by rewrite Z.add_0_l.
Qed.

(** C4: [find_linestarts] starts from the entry of offset 0 at the first
    line, and each further pair adds an entry at the running offset whose
    line is the running line plus the line increment, read as that value
    minus 256 when it is 128 or more and as it stands otherwise; with first
    line 10 and the table bytes 0 0, 4 1, 6 255 the mapping is
    {0: 10, 4: 11, 10: 10}. *)
Theorem find_linestarts_signed_increment :
  (forall bytecode constants names varnames cellvars freevars firstlineno,
      find_linestarts
        (Code bytecode constants names varnames cellvars freevars
           [] firstlineno)
      = {[ 0 := firstlineno ]})
  /\ (forall bytecode constants names varnames cellvars freevars
             (lnotab : list byte) (byte_incr line_incr : byte)
             (firstlineno : Z) (k : nat),
        length lnotab = (2 * k)%nat ->
        128 <= byte_val line_incr ->
        find_linestarts
          (Code bytecode constants names varnames cellvars freevars
             (lnotab ++ [byte_incr; line_incr]) firstlineno)
        = <[byte_total (zip (slice_0_2 lnotab) (slice_1_2 lnotab))
            + byte_val byte_incr
            := firstlineno
               + line_total (zip (slice_0_2 lnotab) (slice_1_2 lnotab))
               + (byte_val line_incr - 256)]>
            (find_linestarts
               (Code bytecode constants names varnames cellvars freevars
                  lnotab firstlineno)))
  /\ (forall bytecode constants names varnames cellvars freevars
             (lnotab : list byte) (byte_incr line_incr : byte)
             (firstlineno : Z) (k : nat),
        length lnotab = (2 * k)%nat ->
        byte_val line_incr < 128 ->
        find_linestarts
          (Code bytecode constants names varnames cellvars freevars
             (lnotab ++ [byte_incr; line_incr]) firstlineno)
        = <[byte_total (zip (slice_0_2 lnotab) (slice_1_2 lnotab))
            + byte_val byte_incr
            := firstlineno
               + line_total (zip (slice_0_2 lnotab) (slice_1_2 lnotab))
               + byte_val line_incr]>
            (find_linestarts
               (Code bytecode constants names varnames cellvars freevars
                  lnotab firstlineno)))
  /\ (forall bytecode constants names varnames cellvars freevars,
        find_linestarts
          (Code bytecode constants names varnames cellvars freevars
             [Byte.x00; Byte.x00; Byte.x04; Byte.x01; Byte.x06; Byte.xff] 10)
        = {[ 0 := 10; 4 := 11; 10 := 10 ]}).
Proof.
  split; [done|]. split; [|split].
  - intros ? ? ? ? ? ? lnotab b l first k Hlen Hl.
    rewrite (find_linestarts_snoc _ _ _ _ _ _ _ _ _ _ k) by done.
    unfold signed_line_incr.
    by replace (128 <=? byte_val l) with true
      by (symmetry; apply Z.leb_le; lia).
  - intros ? ? ? ? ? ? lnotab b l first k Hlen Hl.
    rewrite (find_linestarts_snoc _ _ _ _ _ _ _ _ _ _ k) by done.
    unfold signed_line_incr.
    by replace (128 <=? byte_val l) with false
      by (symmetry; apply Z.leb_gt; lia).
  - apply find_linestarts_three_pairs.
Qed.

(** The pair (6, 255) after the table 0 0, 4 1, whose running offset is 4
    and running line 11: the new entry is at offset 10, back on line 10. *)
Lemma find_linestarts_signed_increment_witness :
  length [Byte.x00; Byte.x00; Byte.x04; Byte.x01] = (2 * 2)%nat
  /\ 128 <= byte_val Byte.xff
  /\ find_linestarts
       (code_of_lnotab
          ([Byte.x00; Byte.x00; Byte.x04; Byte.x01] ++ [Byte.x06; Byte.xff])
          10)
     = <[4 + byte_val Byte.x06 := 10 + 1 + (byte_val Byte.xff - 256)]>
         (find_linestarts
            (code_of_lnotab [Byte.x00; Byte.x00; Byte.x04; Byte.x01] 10)).
Proof.
  assert (Hl : 128 <= byte_val Byte.xff) by (vm_compute; discriminate).
  split; [reflexivity|]. split; [exact Hl|].
  exact (proj1 (proj2 find_linestarts_signed_increment)
           [] (Some []) (Some []) (Some []) (Some []) (Some [])
           [Byte.x00; Byte.x00; Byte.x04; Byte.x01] Byte.x06 Byte.xff 10 2%nat
           eq_refl Hl).
Defined.

(** X8: a line table of odd length is read as if its last byte were not
    there: the unpaired byte increment is dropped without an error. *)
Theorem find_linestarts_odd_tail bytecode constants names varnames cellvars
    freevars (lnotab : list byte) (b : byte) (firstlineno : Z) (k : nat) :
  length lnotab = (2 * k)%nat ->
  find_linestarts
    (Code bytecode constants names varnames cellvars freevars
       (lnotab ++ [b]) firstlineno)
  = find_linestarts
      (Code bytecode constants names varnames cellvars freevars
         lnotab firstlineno).
Proof.
  intros Hlen. unfold find_linestarts. simpl co_lnotab.
  by rewrite (lnotab_pairs_trailing k).
Qed.

(** Every entry the loop of [find_linestarts] leaves was there before or
    lies within reach of the increments applied. *)
Lemma linestarts_fold_bounds (pairs : list (byte * byte)) :
  forall (byte line : Z) (d : gmap Z Z) (k v : Z),
    (foldl linestarts_body (byte, line, d) pairs).2 !! k = Some v ->
    d !! k = Some v
    \/ (byte <= k <= byte + 255 * Z.of_nat (length pairs)
        /\ line - 128 * Z.of_nat (length pairs) <= v
           <= line + 127 * Z.of_nat (length pairs)).
Proof.
  induction pairs as [|p pairs IH]; intros byte line d k v; [by left|].
  cbn [foldl]. rewrite linestarts_body_totals. intros Hk.
  pose proof (byte_val_range p.1). pose proof (signed_line_incr_range p.2).
  destruct (IH _ _ _ _ _ Hk) as [Hin|[Hkb Hvb]].
  - apply lookup_insert_Some in Hin as [(<- & <-)|(_ & Hin)]; [|by left].
    right. simpl length. lia.
  - right. simpl length. lia.
Qed.

(** X9: every offset in the mapping lies between 0 and 255 times the
    number of pairs, and every line between the first line minus 128 times
    and plus 127 times that number. *)
Theorem find_linestarts_bounds (codeobj : code) (offset line : Z) :
  find_linestarts codeobj !! offset = Some line ->
  let n := Z.of_nat (Nat.div2 (length (co_lnotab codeobj))) in
  0 <= offset <= 255 * n
  /\ co_firstlineno codeobj - 128 * n <= line
     <= co_firstlineno codeobj + 127 * n.
Proof.
  intros Hlook n. unfold n. rewrite <- lnotab_pairs_length.
  unfold find_linestarts in Hlook. fold (lnotab_pairs codeobj) in Hlook.
  destruct (linestarts_fold_bounds _ _ _ _ _ _ Hlook) as [Hin|Hb]; [|lia].
  apply lookup_singleton_Some in Hin as [<- <-]. lia.
Qed.

Lemma find_linestarts_odd_tail_witness :
  length [Byte.x04; Byte.x01] = (2 * 1)%nat
  /\ find_linestarts (code_of_lnotab ([Byte.x04; Byte.x01] ++ [Byte.x06]) 10)
     = find_linestarts (code_of_lnotab [Byte.x04; Byte.x01] 10).
Proof.
  split; [reflexivity|].
  exact (find_linestarts_odd_tail [] (Some []) (Some []) (Some []) (Some [])
           (Some []) [Byte.x04; Byte.x01] Byte.x06 10 1 eq_refl).
Defined.

Lemma find_linestarts_bounds_witness :
  find_linestarts
    (code_of_lnotab
       [Byte.x00; Byte.x00; Byte.x04; Byte.x01; Byte.x06; Byte.xff] 10) !! 10
  = Some 10
  /\ 0 <= 10 <= 255 * 3
  /\ 10 - 128 * 3 <= 10 <= 10 + 127 * 3.
Proof.
  split; [reflexivity|].
  exact (find_linestarts_bounds
           (code_of_lnotab
              [Byte.x00; Byte.x00; Byte.x04; Byte.x01; Byte.x06; Byte.xff] 10)
           10 10 eq_refl).
Defined.

(** ** More on the operand resolver *)

Section GetArgvalueCases.

Variable dis : dis_module.
Variable repr : pyobj -> string.

(** X10: an opcode that is in none of the six category tables resolves to
    nothing, whatever its operand, even an absent one. *)
Theorem get_argvalue_uncategorised (offset : Z) (codeobj : code) (opcode : Z)
    (oparg : option Z) (cell_names : option (list string)) :
  py_concat (co_cellvars codeobj) (co_freevars codeobj) = inr cell_names ->
  opcode ∉ hasconst dis -> opcode ∉ hasname dis -> opcode ∉ hasjrel dis ->
  opcode ∉ haslocal dis -> opcode ∉ hascompare dis -> opcode ∉ hasfree dis ->
  get_argvalue dis repr offset codeobj opcode oparg = inr PyNone.
Proof.
  intros Hcells ? ? ? ? ? ?. unfold get_argvalue. rewrite Hcells.
  by categories.
Qed.

(** X11: an operand at or past the end of the table its opcode reads makes
    the resolver raise [IndexError], for each of the five tables. *)
Theorem get_argvalue_index_out_of_range (offset : Z) (codeobj : code)
    (opcode k : Z) (cell_names : list string) :
  py_concat (co_cellvars codeobj) (co_freevars codeobj)
  = inr (Some cell_names) ->
  (forall constants,
      opcode ∈ hasconst dis -> co_consts codeobj = Some constants ->
      Z.of_nat (length constants) <= k ->
      get_argvalue dis repr offset codeobj opcode (Some k) = inl IndexError)
  /\ (forall names,
        opcode ∉ hasconst dis -> opcode ∈ hasname dis ->
        co_names codeobj = Some names -> Z.of_nat (length names) <= k ->
        get_argvalue dis repr offset codeobj opcode (Some k) = inl IndexError)
  /\ (forall varnames,
        opcode ∉ hasconst dis -> opcode ∉ hasname dis ->
        opcode ∉ hasjrel dis -> opcode ∈ haslocal dis ->
        co_varnames codeobj = Some varnames ->
        Z.of_nat (length varnames) <= k ->
        get_argvalue dis repr offset codeobj opcode (Some k) = inl IndexError)
  /\ (opcode ∉ hasconst dis -> opcode ∉ hasname dis ->
      opcode ∉ hasjrel dis -> opcode ∉ haslocal dis ->
      opcode ∈ hascompare dis -> Z.of_nat (length (cmp_op dis)) <= k ->
      get_argvalue dis repr offset codeobj opcode (Some k) = inl IndexError)
  /\ (opcode ∉ hasconst dis -> opcode ∉ hasname dis ->
      opcode ∉ hasjrel dis -> opcode ∉ haslocal dis ->
      opcode ∉ hascompare dis -> opcode ∈ hasfree dis ->
      Z.of_nat (length cell_names) <= k ->
      get_argvalue dis repr offset codeobj opcode (Some k) = inl IndexError).
Proof.
  intros Hcells. unfold get_argvalue. rewrite Hcells.
  repeat split; intros; categories;
    repeat match goal with
      | H : _ = Some _ |- _ => rewrite H; clear H
      end;
    unfold py_index_opt; by rewrite py_index_past_end.
Qed.

(** X12: a constant-load opcode with an operand inside the constant pool
    never resolves to nothing: a text or [None] constant is replaced by its
    [repr], any other constant is handed on as it is. *)
Theorem get_argvalue_constant (offset : Z) (codeobj : code) (opcode k : Z)
    (cell_names : option (list string)) (constants : list pyobj)
    (constant : pyobj) :
  py_concat (co_cellvars codeobj) (co_freevars codeobj) = inr cell_names ->
  opcode ∈ hasconst dis ->
  co_consts codeobj = Some constants ->
  py_index constants k = inr constant ->
  exists argvalue,
    get_argvalue dis repr offset codeobj opcode (Some k) = inr argvalue
    /\ argvalue <> PyNone
    /\ (is_str_or_none constant = true -> argvalue = PyStr (repr constant))
    /\ (is_str_or_none constant = false -> argvalue = constant).
Proof.
  intros Hcells Hop Hconsts Hk. unfold get_argvalue.
  rewrite Hcells, Hconsts. categories. unfold py_index_opt. rewrite Hk.
  destruct (is_str_or_none constant) eqn:Hs; eexists; split; try done.
  split; [|done]. by destruct constant.
Qed.

(** X13: an opcode that is no constant load resolves to a text or to
    nothing; so a resolved value that is a code object was loaded by a
    constant-load opcode, from the constant pool of the unit. *)
Theorem get_argvalue_result_kinds (offset : Z) (codeobj : code) (opcode : Z)
    (oparg : option Z) (argvalue : pyobj) :
  get_argvalue dis repr offset codeobj opcode oparg = inr argvalue ->
  (opcode ∉ hasconst dis ->
   argvalue = PyNone \/ exists s, argvalue = PyStr s)
  /\ (has_co_code argvalue = true ->
      opcode ∈ hasconst dis
      /\ exists constants,
          co_consts codeobj = Some constants /\ argvalue ∈ constants).
Proof.
  intros Hres.
  assert (Hother : opcode ∉ hasconst dis ->
            argvalue = PyNone \/ exists s, argvalue = PyStr s).
  { revert Hres. unfold get_argvalue.
    destruct (py_concat _ _) as [e|cell_names]; [done|].
    intros Hres Hop. rewrite (bool_decide_eq_false_2 _ Hop) in Hres.
    revert Hres.
    repeat case_bool_decide;
      repeat match goal with
        | |- context [match ?x with _ => _ end] => destruct x eqn:?
        end;
      intros [= <-]; eauto. }
  split; [done|]. intros Hcode. split.
  - destruct (decide (opcode ∈ hasconst dis)) as [|Hno]; [done|].
    destruct (Hother Hno) as [->|[s ->]]; done.
  - by eapply get_argvalue_code.
Qed.

(** X14: with every table present, an opcode of any of the six categories
    that comes without an operand makes the resolver raise [TypeError]; it
    does not resolve to nothing. *)
Theorem get_argvalue_absent_operand (offset : Z) (codeobj : code) (opcode : Z)
    (constants : list pyobj) (names varnames cell_names : list string) :
  co_consts codeobj = Some constants ->
  co_names codeobj = Some names ->
  co_varnames codeobj = Some varnames ->
  py_concat (co_cellvars codeobj) (co_freevars codeobj)
  = inr (Some cell_names) ->
  opcode ∈ hasconst dis \/ opcode ∈ hasname dis \/ opcode ∈ hasjrel dis
  \/ opcode ∈ haslocal dis \/ opcode ∈ hascompare dis \/ opcode ∈ hasfree dis ->
  get_argvalue dis repr offset codeobj opcode None = inl TypeError.
Proof.
  intros Hconsts Hnames Hvars Hcells Hcat. unfold get_argvalue.
  rewrite Hcells, Hconsts, Hnames, Hvars.
  repeat case_bool_decide; try done.
  destruct Hcat as [?|[?|[?|[?|[?|?]]]]]; done.
Qed.

End GetArgvalueCases.

Lemma get_argvalue_uncategorised_witness :
  py_concat (co_cellvars sample_unit) (co_freevars sample_unit)
  = inr (Some ["z"; "t"])
  /\ (83 ∉ hasconst CPython38.dis) /\ (83 ∉ hasname CPython38.dis)
  /\ (83 ∉ hasjrel CPython38.dis) /\ (83 ∉ haslocal CPython38.dis)
  /\ (83 ∉ hascompare CPython38.dis) /\ (83 ∉ hasfree CPython38.dis)
  /\ get_argvalue CPython38.dis CPython38.repr 2 sample_unit 83 None
     = inr PyNone.
Proof.
  assert (H1 : 83 ∉ hasconst CPython38.dis)
    by (apply (bool_decide_unpack _); exact I).
  assert (H2 : 83 ∉ hasname CPython38.dis)
    by (apply (bool_decide_unpack _); exact I).
  assert (H3 : 83 ∉ hasjrel CPython38.dis)
    by (apply (bool_decide_unpack _); exact I).
  assert (H4 : 83 ∉ haslocal CPython38.dis)
    by (apply (bool_decide_unpack _); exact I).
  assert (H5 : 83 ∉ hascompare CPython38.dis)
    by (apply (bool_decide_unpack _); exact I).
  assert (H6 : 83 ∉ hasfree CPython38.dis)
    by (apply (bool_decide_unpack _); exact I).
  split; [reflexivity|]. repeat (split; [assumption|]).
  exact (get_argvalue_uncategorised CPython38.dis CPython38.repr 2 sample_unit
           83 None (Some ["z"; "t"]) eq_refl H1 H2 H3 H4 H5 H6).
Defined.

(** [LOAD_CONST 4] on a pool of four constants. *)
Lemma get_argvalue_index_out_of_range_witness :
  py_concat (co_cellvars sample_unit) (co_freevars sample_unit)
  = inr (Some ["z"; "t"])
  /\ (100 ∈ hasconst CPython38.dis)
  /\ co_consts sample_unit
     = Some [PyInt 5; PyNone; PyStr "text"; nested_unit 1]
  /\ Z.of_nat (length [PyInt 5; PyNone; PyStr "text"; nested_unit 1]) <= 4
  /\ get_argvalue CPython38.dis CPython38.repr 0 sample_unit 100 (Some 4)
     = inl IndexError.
Proof.
  assert (H1 : 100 ∈ hasconst CPython38.dis)
    by (apply (bool_decide_unpack _); exact I).
  assert (H2 : Z.of_nat (length [PyInt 5; PyNone; PyStr "text"; nested_unit 1])
               <= 4) by (vm_compute; discriminate).
  split; [reflexivity|]. split; [exact H1|]. split; [reflexivity|].
  split; [exact H2|].
  exact (proj1 (get_argvalue_index_out_of_range CPython38.dis CPython38.repr 0
                  sample_unit 100 4 ["z"; "t"] eq_refl)
           _ H1 eq_refl H2).
Defined.

(** [LOAD_CONST 1] loads the constant [None] and shows its text. *)
Lemma get_argvalue_constant_witness :
  py_concat (co_cellvars sample_unit) (co_freevars sample_unit)
  = inr (Some ["z"; "t"])
  /\ (100 ∈ hasconst CPython38.dis)
  /\ co_consts sample_unit
     = Some [PyInt 5; PyNone; PyStr "text"; nested_unit 1]
  /\ py_index [PyInt 5; PyNone; PyStr "text"; nested_unit 1] 1 = inr PyNone
  /\ exists argvalue,
       get_argvalue CPython38.dis CPython38.repr 0 sample_unit 100 (Some 1)
       = inr argvalue
       /\ argvalue <> PyNone
       /\ (is_str_or_none PyNone = true
           -> argvalue = PyStr (CPython38.repr PyNone))
       /\ (is_str_or_none PyNone = false -> argvalue = PyNone).
Proof.
  assert (H1 : 100 ∈ hasconst CPython38.dis)
    by (apply (bool_decide_unpack _); exact I).
  split; [reflexivity|]. split; [exact H1|]. split; [reflexivity|].
  split; [reflexivity|].
  exact (get_argvalue_constant CPython38.dis CPython38.repr 0 sample_unit 100 1
           (Some ["z"; "t"]) _ PyNone eq_refl H1 eq_refl eq_refl).
Defined.

(** [LOAD_CONST 3] loads the nested unit. *)
Lemma get_argvalue_result_kinds_witness :
  get_argvalue CPython38.dis CPython38.repr 0 sample_unit 100 (Some 3)
  = inr (nested_unit 1)
  /\ (100 ∉ hasconst CPython38.dis ->
      nested_unit 1 = PyNone \/ exists s, nested_unit 1 = PyStr s)
  /\ (has_co_code (nested_unit 1) = true ->
      100 ∈ hasconst CPython38.dis
      /\ exists constants,
          co_consts sample_unit = Some constants
          /\ nested_unit 1 ∈ constants).
Proof.
  split; [reflexivity|].
  exact (get_argvalue_result_kinds CPython38.dis CPython38.repr 0 sample_unit
           100 (Some 3) (nested_unit 1) eq_refl).
Defined.

(** [COMPARE_OP] without an operand. *)
Lemma get_argvalue_absent_operand_witness :
  co_consts sample_unit = Some [PyInt 5; PyNone; PyStr "text"; nested_unit 1]
  /\ co_names sample_unit = Some ["print"; "a"]
  /\ co_varnames sample_unit = Some ["x"]
  /\ py_concat (co_cellvars sample_unit) (co_freevars sample_unit)
     = inr (Some ["z"; "t"])
  /\ (107 ∈ hascompare CPython38.dis)
  /\ get_argvalue CPython38.dis CPython38.repr 0 sample_unit 107 None
     = inl TypeError.
Proof.
  assert (H1 : 107 ∈ hascompare CPython38.dis)
    by (apply (bool_decide_unpack _); exact I).
  repeat (split; [reflexivity|]). split; [exact H1|].
  apply (get_argvalue_absent_operand CPython38.dis CPython38.repr 0 sample_unit
           107 [PyInt 5; PyNone; PyStr "text"; nested_unit 1] ["print"; "a"]
           ["x"] ["z"; "t"]); try reflexivity.
  right; right; right; right; left. exact H1.
Defined.

(** ** More on the jump target collector *)

Section FindLabelsMore.

Variable dis : dis_module.

(** X15: the list [find_labels] returns holds exactly the destinations of
    the jumps of the unit: no jump target is left out. *)
Theorem find_labels_complete (codeobj : code) (labels : list (option Z))
    (l : option Z) :
  find_labels dis codeobj = inr labels ->
  l ∈ labels
  <-> exists ins, ins ∈ yielded (unpack_op dis (co_code codeobj))
                  /\ jump_destination dis ins = Some l.
Proof.
  unfold find_labels. intros Hrun.
  destruct (find_labels_loop_spec _ _ _ _ Hrun (NoDup_nil_2 (A:=option Z)))
    as (_ & _ & Hall & _).
  rewrite Hall, elem_of_nil. unfold jump_destinations.
  rewrite list_elem_of_omap. tauto.
Qed.

(** A stream of odd length that ends in an opcode taking an argument makes
    the decoder raise [IndexError] at its end. *)
Lemma unpack_op_trailing_raises (bytecode : list byte) (b : byte) (k : nat) :
  length bytecode = (2 * k)%nat ->
  HAVE_ARGUMENT dis <= byte_val b ->
  raised (unpack_op dis (bytecode ++ [b])) = Some IndexError.
Proof.
  intros Hlen Hb. unfold unpack_op.
  pose proof (range_by_2_chunks k) as Hfa. rewrite <- Hlen in Hfa.
  destruct (unpack_loop_trailing dis bytecode b _ Hfa 0) as (_ & H2 & _).
  replace (range_by_2 (length (bytecode ++ [b])))
    with (range_by_2 (length bytecode) ++ [Z.of_nat (length bytecode)]).
  - rewrite H2. by replace (HAVE_ARGUMENT dis <=? byte_val b) with true
      by (symmetry; apply Z.leb_le; lia).
  - rewrite length_app. simpl. rewrite Hlen.
    replace (2 * k + 1)%nat with (S (2 * k)) by lia.
    rewrite range_by_2_odd, <- range_by_2_even. do 2 f_equal. lia.
Qed.

Lemma find_labels_loop_raises (ops : gen instr) (e : exn) :
  raised ops = Some e ->
  (forall ins, ins ∈ yielded ops -> instr_opcode ins ∈ hasjrel dis ->
               is_Some (instr_oparg ins)) ->
  forall acc, find_labels_loop dis ops acc = inl e.
Proof.
  induction ops as [| e' | [[offset opcode] oparg] ops IH]; simpl;
    intros Hraised Hargs acc; [done|congruence|].
  assert (Hrest : forall ins, ins ∈ yielded ops ->
            instr_opcode ins ∈ hasjrel dis -> is_Some (instr_oparg ins))
    by (intros ins Hin; apply Hargs; by apply list_elem_of_further).
  case_bool_decide as Hrel.
  - destruct (Hargs (offset, opcode, oparg)) as [a Ha];
      [apply list_elem_of_here|done|].
    unfold instr_oparg in Ha. simpl in Ha. subst oparg. by apply IH.
  - case_bool_decide; by apply IH.
Qed.

(** X16: on a unit whose stream has odd length and ends in an opcode that
    takes an argument, [find_labels] raises [IndexError] and returns no
    list, whatever jumps came before, when every relative-jump opcode is
    one that takes an argument. *)
Theorem find_labels_truncated (codeobj : code) (bytecode : list byte)
    (b : byte) (k : nat) :
  co_code codeobj = bytecode ++ [b] ->
  length bytecode = (2 * k)%nat ->
  HAVE_ARGUMENT dis <= byte_val b ->
  (forall opcode, opcode ∈ hasjrel dis -> HAVE_ARGUMENT dis <= opcode) ->
  find_labels dis codeobj = inl IndexError.
Proof.
  intros Hcode Hlen Hb Hrel. unfold find_labels. rewrite Hcode.
  apply find_labels_loop_raises.
  - by eapply unpack_op_trailing_raises.
  - intros ins Hin Hop. eapply unpack_loop_has_argument; [exact Hin|].
    by apply Hrel.
Qed.

Lemma omap_filter_length {A B : Type} (f : A -> option B) (P : A -> bool)
    (l : list A) :
  (forall x y, f x = Some y -> P x = true) ->
  (length (omap f l) <= length (filter (fun x => P x = true) l))%nat.
Proof.
  intros HfP. induction l as [|x l IH]; [done|]. simpl omap.
  rewrite filter_cons. destruct (f x) as [y|] eqn:Hfx.
  - rewrite decide_True by (by eapply HfP). apply le_n_S, IH.
  - case_decide; [apply le_S|]; apply IH.
Qed.

Lemma jump_destination_is_jump (ins : instr) (l : option Z) :
  jump_destination dis ins = Some l -> is_jump dis ins = true.
Proof.
  destruct ins as [[offset opcode] oparg].
  unfold jump_destination, is_jump, instr_opcode. simpl.
  repeat case_bool_decide; try done.
Qed.

(** X17: [find_labels] returns at most as many labels as the unit has jump
    instructions; and [unpack_op] yields, on every stream, also one it
    stops on with an exception, at most one instruction per two bytes, a
    last odd byte counting as one. *)
Theorem find_labels_count (codeobj : code) :
  (forall labels,
      find_labels dis codeobj = inr labels ->
      (length labels
       <= length (filter (fun ins => is_jump dis ins = true)
                    (yielded (unpack_op dis (co_code codeobj)))))%nat)
  /\ (length (yielded (unpack_op dis (co_code codeobj)))
      <= Nat.div2 (S (length (co_code codeobj))))%nat.
Proof.
  split.
  - unfold find_labels. intros labels Hrun.
    destruct (find_labels_loop_spec _ _ _ _ Hrun (NoDup_nil_2 (A:=option Z)))
      as (_ & Hnd & Hall & _).
    etrans; [|apply (omap_filter_length (jump_destination dis)),
                jump_destination_is_jump].
    apply submseteq_length, NoDup_submseteq; [done|].
    intros l [Hl|Hl]%Hall; [by apply elem_of_nil in Hl|done].
  - pose proof (unpack_loop_offsets dis (co_code codeobj)
                  (range_by_2 (length (co_code codeobj))) 0) as Hoff.
    apply (f_equal length) in Hoff.
    rewrite length_fmap, length_take in Hoff. unfold range_by_2 in Hoff.
    rewrite length_fmap, length_seq in Hoff. unfold unpack_op, range_by_2.
    lia.
Qed.

Lemma unpack_op_operand_nonneg (bytecode : list byte) :
  Forall (fun ins => forall a, instr_oparg ins = Some a -> 0 <= a)
    (yielded (unpack_op dis bytecode)).
Proof.
  apply unpack_loop_yielded_ind with (Inv := accumulator_ok); [|done].
  intros i before after ins Hinv Hbody.
  destruct (unpack_body_yield _ _ _ _ _ _ Hbody)
    as (_ & b0 & _ & _ & [(_ & -> & ->)|(_ & b1 & _ & -> & ->)]); [done|].
  destruct (lor_byte_accumulator b1 before Hinv) as [Hnn _].
  split; [by intros a [= <-]|].
  destruct (_ =? _); [by apply accumulator_ok_shiftl|done].
Qed.

Lemma unpack_op_offset_nonneg (bytecode : list byte) (ins : instr) :
  ins ∈ yielded (unpack_op dis bytecode) -> 0 <= instr_offset ins.
Proof.
  intros Hin. unfold unpack_op in Hin.
  assert (Hoff : instr_offset ins
                 ∈ instr_offset
                     <$> yielded (unpack_loop dis bytecode
                                    (range_by_2 (length bytecode)) 0))
    by (by apply list_elem_of_fmap_2).
  rewrite unpack_loop_offsets in Hoff.
  apply elem_of_take in Hoff as (j & Hj & _).
  apply list_elem_of_lookup_2 in Hj. unfold range_by_2 in Hj.
  apply list_elem_of_fmap in Hj as (n & -> & _). lia.
Qed.

(** X18: when every absolute-jump opcode takes an argument, each label is
    an offset, never [None] and never negative. *)
Theorem find_labels_offsets (codeobj : code) (labels : list (option Z))
    (l : option Z) :
  (forall opcode, opcode ∈ hasjabs dis -> HAVE_ARGUMENT dis <= opcode) ->
  find_labels dis codeobj = inr labels ->
  l ∈ labels ->
  exists target, l = Some target /\ 0 <= target.
Proof.
  unfold find_labels. intros Habs Hrun Hl.
  destruct (find_labels_loop_spec _ _ _ _ Hrun (NoDup_nil_2 (A:=option Z)))
    as (_ & _ & Hall & _).
  apply Hall in Hl as [Hl|Hl]; [by apply elem_of_nil in Hl|].
  apply list_elem_of_omap in Hl as (ins & Hin & Hdest).
  pose proof (unpack_op_offset_nonneg _ _ Hin) as Hoff.
  pose proof (unpack_op_operand_nonneg (co_code codeobj)) as Hnn.
  rewrite Forall_forall in Hnn. specialize (Hnn _ Hin).
  apply jump_destination_spec in Hdest
    as [(_ & a & Ha & ->)|(Hop & ->)].
  - exists (instr_offset ins + 2 + a). split; [done|].
    specialize (Hnn a Ha). lia.
  - destruct (unpack_loop_has_argument dis _ _ _ _ Hin (Habs _ Hop))
      as [a Ha].
    exists a. split; [done|]. by apply Hnn.
Qed.

End FindLabelsMore.

Lemma find_labels_complete_witness :
  find_labels CPython38.dis code_with_jumps = inr [Some 6; Some 0]
  /\ (Some 6 ∈ [Some 6; Some 0]
      <-> exists ins,
          ins ∈ yielded (unpack_op CPython38.dis (co_code code_with_jumps))
          /\ jump_destination CPython38.dis ins = Some (Some 6)).
Proof.
  split; [reflexivity|].
  exact (find_labels_complete CPython38.dis code_with_jumps [Some 6; Some 0]
           (Some 6) eq_refl).
Defined.

Lemma find_labels_truncated_witness :
  co_code truncated_unit = [Byte.x64; Byte.x00] ++ [Byte.x64]
  /\ length [Byte.x64; Byte.x00] = (2 * 1)%nat
  /\ HAVE_ARGUMENT CPython38.dis <= byte_val Byte.x64
  /\ (forall opcode, opcode ∈ hasjrel CPython38.dis ->
                     HAVE_ARGUMENT CPython38.dis <= opcode)
  /\ find_labels CPython38.dis truncated_unit = inl IndexError.
Proof.
  assert (Hb : HAVE_ARGUMENT CPython38.dis <= byte_val Byte.x64)
    by (vm_compute; discriminate).
  assert (Hrel : forall opcode, opcode ∈ hasjrel CPython38.dis ->
                                HAVE_ARGUMENT CPython38.dis <= opcode).
  { apply Forall_forall. repeat constructor; vm_compute; discriminate. }
  split; [reflexivity|]. split; [reflexivity|]. split; [exact Hb|].
  split; [exact Hrel|].
  exact (find_labels_truncated CPython38.dis truncated_unit
           [Byte.x64; Byte.x00] Byte.x64 1 eq_refl eq_refl Hb Hrel).
Defined.

(** Two labels for three jumps among four instructions; and on
    [truncated_unit], three bytes, one instruction before the exception. *)
Lemma find_labels_count_witness :
  find_labels CPython38.dis code_with_jumps = inr [Some 6; Some 0]
  /\ (length [Some 6; Some 0]
      <= length (filter (fun ins => is_jump CPython38.dis ins = true)
                   (yielded (unpack_op CPython38.dis
                               (co_code code_with_jumps)))))%nat
  /\ (length (yielded (unpack_op CPython38.dis (co_code code_with_jumps)))
      <= Nat.div2 (S (length (co_code code_with_jumps))))%nat
  /\ (length (yielded (unpack_op CPython38.dis (co_code truncated_unit)))
      <= Nat.div2 (S (length (co_code truncated_unit))))%nat.
Proof.
  split; [reflexivity|].
  split; [exact (proj1 (find_labels_count CPython38.dis code_with_jumps)
                   [Some 6; Some 0] eq_refl)|].
  split; [exact (proj2 (find_labels_count CPython38.dis code_with_jumps))|].
  exact (proj2 (find_labels_count CPython38.dis truncated_unit)).
Defined.

Lemma find_labels_offsets_witness :
  (forall opcode, opcode ∈ hasjabs CPython38.dis ->
                  HAVE_ARGUMENT CPython38.dis <= opcode)
  /\ find_labels CPython38.dis code_with_jumps = inr [Some 6; Some 0]
  /\ Some 6 ∈ [Some 6; Some 0]
  /\ exists target, Some 6 = Some target /\ 0 <= target.
Proof.
  assert (Habs : forall opcode, opcode ∈ hasjabs CPython38.dis ->
                                HAVE_ARGUMENT CPython38.dis <= opcode).
  { apply Forall_forall. repeat constructor; vm_compute; discriminate. }
  assert (Hin : Some 6 ∈ [Some 6; Some 0]) by apply list_elem_of_here.
  split; [exact Habs|]. split; [reflexivity|]. split; [exact Hin|].
  exact (find_labels_offsets CPython38.dis code_with_jumps [Some 6; Some 0]
           (Some 6) Habs eq_refl Hin).
Defined.

(** ** More on the disassembly engine *)

Section DisassembleMore.

Variable dis : dis_module.
Variable repr : pyobj -> string.

(** The instruction loop line by line. *)
Lemma disassemble_loop_lines (c : code) (linestarts : gmap Z Z)
    (labels : list (option Z)) (ops : gen instr) :
  forall (acc : list pyobj) (out : list event) (r : exn + list pyobj),
    disassemble_loop dis repr c linestarts labels ops acc = (out, r) ->
    Forall2 (line_of dis repr c linestarts labels)
      (take (length (texts out)) (yielded ops)) (texts out)
    /\ out = with_blank_lines (texts out).
Proof.
  induction ops as [| e | [[offset opcode] oparg] ops IH]; intros acc out r;
    simpl.
  - intros [= <- <-]. split; [constructor|done].
  - intros [= <- <-]. split; [constructor|done].
  - destruct (get_argvalue _ _ _ _ _ _) as [e|argvalue] eqn:Harg.
    { intros [= <- <-]. split; [constructor|done]. }
    destruct (py_index (opname dis) opcode) as [e|name] eqn:Hname.
    { intros [= <- <-]. split; [constructor|done]. }
    destruct (disassemble_loop _ _ _ _ _ _ _) as [out' r'] eqn:Hloop.
    intros [= <- <-]. destruct (IH _ _ _ Hloop) as [Hlines Hblank].
    set (t := {| text_line := line_or_empty (linestarts !! offset);
                 text_mark := bool_decide (Some offset ∈ labels);
                 text_offset := offset;
                 text_opname := name;
                 text_oparg := oparg;
                 text_argvalue := argvalue_or_empty argvalue |}).
    set (b := if _ && _ then [Blank] else []).
    assert (Htexts : texts ((b ++ [Text t]) ++ out') = t :: texts out')
      by (unfold b; by destruct (_ && _)).
    rewrite Htexts. split.
    + simpl. constructor; [|done].
      unfold line_of, instr_offset, instr_opcode, instr_oparg. simpl.
      repeat split; try done. by exists argvalue.
    + cbn [with_blank_lines flat_map]. fold (with_blank_lines (texts out')).
      rewrite <- Hblank. done.
Qed.

Lemma before_first_header_app (listing rest : list event) :
  Forall (fun e => is_header e = false) listing ->
  rest = [] \/ (exists oc rest', rest = Header oc :: rest') ->
  before_first_header (listing ++ rest) = listing.
Proof.
  intros Hfree Hrest. induction Hfree as [|e listing He _ IH]; simpl.
  - by destruct Hrest as [->|(oc & rest' & ->)].
  - by rewrite He, IH.
Qed.

(** What [disassemble] prints before the first header is what its
    instruction loop printed. *)
Lemma disassemble_own_listing (fuel : nat) (co : code) (out : list event)
    (r : outcome) (labels : list (option Z)) :
  disassemble dis repr fuel (PyCode co) = (out, r) ->
  find_labels dis co = inr labels ->
  before_first_header out
  = (disassemble_loop dis repr co (find_linestarts co) labels
       (unpack_op dis (co_code co)) []).1.
Proof.
  rewrite disassemble_code. intros Hrun Hlabels. rewrite Hlabels in Hrun.
  destruct (disassemble_loop _ _ _ _ _ _ _) as [listing r0] eqn:Hloop.
  destruct (disassemble_loop_spec _ _ _ _ _ _ _ _ _ Hloop) as (Hfree & _).
  simpl. destruct r0 as [e|code_objects].
  - injection Hrun as <- <-.
    rewrite <- (app_nil_r listing) at 1.
    apply before_first_header_app; eauto.
  - pose proof (disassemble_children_header (disassemble_call dis repr fuel)
                  code_objects) as Hchildren.
    destruct (disassemble_children _ _) as [out' r']. injection Hrun as <- <-.
    by apply before_first_header_app.
Qed.

Lemma disassemble_without_labels (fuel : nat) (co : code) (e : exn) :
  find_labels dis co = inl e ->
  disassemble dis repr fuel (PyCode co) = ([], Raised e).
Proof. intros H. by rewrite disassemble_code, H. Qed.

(** X19: on a unit whose stream has odd length and ends in an opcode that
    takes an argument, [disassemble] raises [IndexError] before it prints
    anything, not even the lines of the instructions that are complete;
    this holds when every relative-jump opcode takes an argument. *)
Theorem disassemble_truncated (fuel : nat) (co : code) (bytecode : list byte)
    (b : byte) (k : nat) :
  co_code co = bytecode ++ [b] ->
  length bytecode = (2 * k)%nat ->
  HAVE_ARGUMENT dis <= byte_val b ->
  (forall opcode, opcode ∈ hasjrel dis -> HAVE_ARGUMENT dis <= opcode) ->
  disassemble dis repr fuel (PyCode co) = ([], Raised IndexError).
Proof.
  intros Hcode Hlen Hb Hrel. apply disassemble_without_labels.
  unfold find_labels. rewrite Hcode. apply find_labels_loop_raises.
  - by eapply unpack_op_trailing_raises.
  - intros ins Hin Hop. eapply unpack_loop_has_argument; [exact Hin|].
    by apply Hrel.
Qed.

(** X20: a line of the unit's own listing carries the jump mark exactly
    when its offset is the destination of a jump instruction of the
    unit. *)
Theorem disassemble_marks (fuel : nat) (co : code) (out : list event)
    (r : outcome) (t : dis_text) :
  disassemble dis repr fuel (PyCode co) = (out, r) ->
  t ∈ texts (before_first_header out) ->
  text_mark t = true
  <-> exists ins, ins ∈ yielded (unpack_op dis (co_code co))
                  /\ jump_destination dis ins = Some (Some (text_offset t)).
Proof.
  intros Hrun Ht. destruct (find_labels dis co) as [e|labels] eqn:Hlabels.
  { rewrite (disassemble_without_labels _ _ _ Hlabels) in Hrun.
    injection Hrun as <- <-. by apply elem_of_nil in Ht. }
  rewrite (disassemble_own_listing _ _ _ _ _ Hrun Hlabels) in Ht.
  destruct (disassemble_loop _ _ _ _ _ _ _) as [listing r0] eqn:Hloop.
  destruct (disassemble_loop_lines _ _ _ _ _ _ _ Hloop) as [Hlines _].
  simpl in Ht. apply list_elem_of_lookup in Ht as [i Hi].
  destruct (Forall2_lookup_r _ _ _ _ _ Hlines Hi)
    as (ins & _ & Hoff & _ & _ & _ & Hmark & _).
  rewrite Hmark, bool_decide_eq_true, <- Hoff.
  unfold find_labels in Hlabels.
  destruct (find_labels_loop_spec _ _ _ _ Hlabels (NoDup_nil_2 (A:=option Z)))
    as (_ & _ & Hall & _).
  rewrite Hall, elem_of_nil. unfold jump_destinations.
  rewrite list_elem_of_omap. tauto.
Qed.

(** X21: in the unit's own listing an empty line stands exactly before each
    line that shows a line number and is not at offset 0, and nowhere
    else. *)
Theorem disassemble_blank_lines (fuel : nat) (co : code) (out : list event)
    (r : outcome) :
  disassemble dis repr fuel (PyCode co) = (out, r) ->
  before_first_header out
  = with_blank_lines (texts (before_first_header out)).
Proof.
  intros Hrun. destruct (find_labels dis co) as [e|labels] eqn:Hlabels.
  { rewrite (disassemble_without_labels _ _ _ Hlabels) in Hrun.
    by injection Hrun as <- <-. }
  rewrite (disassemble_own_listing _ _ _ _ _ Hrun Hlabels).
  destruct (disassemble_loop _ _ _ _ _ _ _) as [listing r0] eqn:Hloop.
  by destruct (disassemble_loop_lines _ _ _ _ _ _ _ Hloop) as [_ Hblank].
Qed.

(** X22: the lines of the unit's own listing are, in order, the lines of
    the first instructions of the stream: each shows the offset and the
    operand of its instruction, the name of its opcode in [dis.opname], the
    line number the line table gives for the offset unless that is 0, the
    jump mark when the offset is among the labels, and the value
    [get_argvalue] resolved unless that is nothing. *)
Theorem disassemble_lines (fuel : nat) (co : code) (out : list event)
    (r : outcome) (labels : list (option Z)) :
  disassemble dis repr fuel (PyCode co) = (out, r) ->
  find_labels dis co = inr labels ->
  Forall2 (line_of dis repr co (find_linestarts co) labels)
    (take (length (texts (before_first_header out)))
       (yielded (unpack_op dis (co_code co))))
    (texts (before_first_header out)).
Proof.
  intros Hrun Hlabels.
  rewrite (disassemble_own_listing _ _ _ _ _ Hrun Hlabels).
  destruct (disassemble_loop _ _ _ _ _ _ _) as [listing r0] eqn:Hloop.
  by destruct (disassemble_loop_lines _ _ _ _ _ _ _ Hloop) as [Hlines _].
Qed.

End DisassembleMore.

Lemma disassemble_truncated_witness :
  co_code truncated_unit = [Byte.x64; Byte.x00] ++ [Byte.x64]
  /\ length [Byte.x64; Byte.x00] = (2 * 1)%nat
  /\ HAVE_ARGUMENT CPython38.dis <= byte_val Byte.x64
  /\ (forall opcode, opcode ∈ hasjrel CPython38.dis ->
                     HAVE_ARGUMENT CPython38.dis <= opcode)
  /\ disassemble CPython38.dis CPython38.repr 0 (PyCode truncated_unit)
     = ([], Raised IndexError).
Proof.
  assert (Hb : HAVE_ARGUMENT CPython38.dis <= byte_val Byte.x64)
    by (vm_compute; discriminate).
  assert (Hrel : forall opcode, opcode ∈ hasjrel CPython38.dis ->
                                HAVE_ARGUMENT CPython38.dis <= opcode).
  { apply Forall_forall. repeat constructor; vm_compute; discriminate. }
  split; [reflexivity|]. split; [reflexivity|]. split; [exact Hb|].
  split; [exact Hrel|].
  exact (disassemble_truncated CPython38.dis CPython38.repr 0 truncated_unit
           [Byte.x64; Byte.x00] Byte.x64 1 eq_refl eq_refl Hb Hrel).
Defined.

(** The line of [RETURN_VALUE] at offset 6, the target of two jumps. *)
Lemma disassemble_marks_witness :
  let run :=
    disassemble CPython38.dis CPython38.repr 0 (PyCode code_with_jumps) in
  let t := {| text_line := None; text_mark := true; text_offset := 6;
              text_opname := "RETURN_VALUE"; text_oparg := None;
              text_argvalue := None |} in
  run = (run.1, run.2)
  /\ t ∈ texts (before_first_header run.1)
  /\ (text_mark t = true
      <-> exists ins,
          ins ∈ yielded (unpack_op CPython38.dis (co_code code_with_jumps))
          /\ jump_destination CPython38.dis ins = Some (Some (text_offset t))).
Proof.
  intros run t.
  assert (Hrun : run = (run.1, run.2)) by reflexivity.
  assert (Ht : t ∈ texts (before_first_header run.1))
    by (apply list_elem_of_lookup_2 with (i := 3%nat); reflexivity).
  split; [exact Hrun|]. split; [exact Ht|].
  exact (disassemble_marks CPython38.dis CPython38.repr 0 code_with_jumps
           run.1 run.2 t Hrun Ht).
Defined.

Lemma disassemble_blank_lines_witness :
  let run := disassemble CPython38.dis CPython38.repr 0 (PyCode listed_unit) in
  run = (run.1, run.2)
  /\ before_first_header run.1
     = with_blank_lines (texts (before_first_header run.1)).
Proof.
  intros run.
  assert (Hrun : run = (run.1, run.2)) by reflexivity.
  split; [exact Hrun|].
  exact (disassemble_blank_lines CPython38.dis CPython38.repr 0 listed_unit
           run.1 run.2 Hrun).
Defined.

Lemma disassemble_lines_witness :
  let run := disassemble CPython38.dis CPython38.repr 0 (PyCode listed_unit) in
  run = (run.1, run.2)
  /\ find_labels CPython38.dis listed_unit = inr []
  /\ Forall2
       (line_of CPython38.dis CPython38.repr listed_unit
          (find_linestarts listed_unit) [])
       (take (length (texts (before_first_header run.1)))
          (yielded (unpack_op CPython38.dis (co_code listed_unit))))
       (texts (before_first_header run.1)).
Proof.
  intros run.
  assert (Hrun : run = (run.1, run.2)) by reflexivity.
  split; [exact Hrun|]. split; [reflexivity|].
  exact (disassemble_lines CPython38.dis CPython38.repr 0 listed_unit
           run.1 run.2 [] Hrun eq_refl).
Defined.

(** The listing of [listed_unit]: four lines, an empty line before the
    one at offset 4 where line 2 starts. *)
Example disassemble_listed_unit :
  disassemble CPython38.dis CPython38.repr 0 (PyCode listed_unit)
  = ([Text (DisText (Some 1) false 0 "LOAD_CONST" (Some 0) (Some (PyInt 5)));
      Text (DisText None false 2 "STORE_NAME" (Some 0) (Some (PyStr "a")));
      Blank;
      Text (DisText (Some 2) false 4 "LOAD_NAME" (Some 0) (Some (PyStr "a")));
      Text (DisText None false 6 "RETURN_VALUE" None None)],
     Returned).
Proof. vm_compute. reflexivity. Qed.

(** ** The cache file reader *)

Lemma tuple_ge_trans (a : list Z) :
  forall b c, tuple_ge a b = true -> tuple_ge b c = true ->
              tuple_ge a c = true.
Proof.
  induction a as [|x a IH]; intros [|y b] [|z c]; simpl; try done.
  destruct (Z.eqb_spec x y) as [->|Hxy].
  - destruct (Z.eqb_spec y z); [apply IH|done].
  - intros Hyx%Z.ltb_lt. destruct (Z.eqb_spec y z) as [->|Hyz].
    + intros _. destruct (Z.eqb_spec x z); [done|]. by apply Z.ltb_lt.
    + intros Hzy%Z.ltb_lt. destruct (Z.eqb_spec x z); [lia|].
      apply Z.ltb_lt. lia.
Qed.

(** X23: the header size is 8, 12 or 16 bytes and never shrinks from one
    interpreter version to a later one. *)
Theorem header_size_monotone (older newer : list Z) :
  tuple_ge newer older = true ->
  header_size older <= header_size newer
  /\ (header_size newer = 8 \/ header_size newer = 12
      \/ header_size newer = 16).
Proof.
  intros Hge. unfold header_size.
  pose proof (tuple_ge_trans newer older [3; 6] Hge) as H36.
  pose proof (tuple_ge_trans newer older [3; 7] Hge) as H37.
  assert (H76 : tuple_ge older [3; 7] = true -> tuple_ge older [3; 6] = true)
    by (intros H; by apply (tuple_ge_trans older [3; 7] [3; 6])).
  destruct (tuple_ge older [3; 7]), (tuple_ge older [3; 6]);
    try (rewrite H37 by done); try (rewrite H36 by done);
    try (by discriminate (H76 eq_refl));
    destruct (tuple_ge newer [3; 7]), (tuple_ge newer [3; 6]);
    split; try lia; eauto.
Qed.

(** X24: [disassemble_pyc] reads the header and throws it away: what it
    does depends only on the bytes after the header, and a file no longer
    than the header is handed to [marshal.load] as an empty stream. *)
Theorem disassemble_pyc_skips_header (dis : dis_module)
    (repr : pyobj -> string) (version_info : list Z)
    (marshal_load : list byte -> option pyobj) (fuel : nat) :
  (forall header payload,
      length header = Z.to_nat (header_size version_info) ->
      disassemble_pyc dis repr version_info marshal_load fuel
        (header ++ payload)
      = disassemble dis repr fuel <$> marshal_load payload)
  /\ (forall contents,
        (length contents <= Z.to_nat (header_size version_info))%nat ->
        disassemble_pyc dis repr version_info marshal_load fuel contents
        = disassemble dis repr fuel <$> marshal_load []).
Proof.
  split.
  - intros header payload Hlen. unfold disassemble_pyc.
    rewrite <- Hlen, drop_app_length. by destruct (marshal_load payload).
  - intros contents Hlen. unfold disassemble_pyc.
    rewrite drop_ge by done. by destruct (marshal_load []).
Qed.

(** X25: when the file holds anything but a code object, [disassemble_pyc]
    ends in the [TypeError] of [disassemble] and prints nothing. *)
Theorem disassemble_pyc_not_code (dis : dis_module) (repr : pyobj -> string)
    (version_info : list Z) (marshal_load : list byte -> option pyobj)
    (fuel : nat) (contents : list byte) (code_obj : pyobj) :
  marshal_load (drop (Z.to_nat (header_size version_info)) contents)
  = Some code_obj ->
  has_co_code code_obj = false ->
  disassemble_pyc dis repr version_info marshal_load fuel contents
  = Some ([], Raised TypeError).
Proof.
  intros Hload Hcode. unfold disassemble_pyc. rewrite Hload.
  f_equal. destruct fuel; simpl; by rewrite Hcode.
Qed.

Lemma header_size_monotone_witness :
  tuple_ge [3; 8; 10] [3; 6; 15] = true
  /\ header_size [3; 6; 15] <= header_size [3; 8; 10]
  /\ (header_size [3; 8; 10] = 8 \/ header_size [3; 8; 10] = 12
      \/ header_size [3; 8; 10] = 16).
Proof.
  split; [reflexivity|].
  exact (header_size_monotone [3; 6; 15] [3; 8; 10] eq_refl).
Defined.

(** Sixteen bytes of header before a code object of two instructions. *)
Lemma disassemble_pyc_skips_header_witness :
  length (replicate 16 Byte.x00) = Z.to_nat (header_size [3; 8; 10])
  /\ disassemble_pyc CPython38.dis CPython38.repr [3; 8; 10]
       sample_marshal_load 0
       (replicate 16 Byte.x00
          ++ [Byte.xe3; Byte.x64; Byte.x00; Byte.x53; Byte.x00])
     = disassemble CPython38.dis CPython38.repr 0
         <$> sample_marshal_load
               [Byte.xe3; Byte.x64; Byte.x00; Byte.x53; Byte.x00].
Proof.
  split; [reflexivity|].
  exact (proj1 (disassemble_pyc_skips_header CPython38.dis CPython38.repr
                  [3; 8; 10] sample_marshal_load 0)
           (replicate 16 Byte.x00)
           [Byte.xe3; Byte.x64; Byte.x00; Byte.x53; Byte.x00] eq_refl).
Defined.

Lemma disassemble_pyc_not_code_witness :
  sample_marshal_load
    (drop (Z.to_nat (header_size [3; 8; 10]))
       (replicate 16 Byte.x00 ++ [Byte.x69; Byte.x00]))
  = Some (PyInt 0)
  /\ has_co_code (PyInt 0) = false
  /\ disassemble_pyc CPython38.dis CPython38.repr [3; 8; 10]
       sample_marshal_load 0 (replicate 16 Byte.x00 ++ [Byte.x69; Byte.x00])
     = Some ([], Raised TypeError).
Proof.
  split; [reflexivity|]. split; [reflexivity|].
  exact (disassemble_pyc_not_code CPython38.dis CPython38.repr [3; 8; 10]
           sample_marshal_load 0
           (replicate 16 Byte.x00 ++ [Byte.x69; Byte.x00]) (PyInt 0)
           eq_refl eq_refl).
Defined.

Lemma find_labels_returns_witness :
  length (co_code code_with_jumps) = (2 * 4)%nat
  /\ (forall opcode, opcode ∈ hasjrel CPython38.dis ->
                     HAVE_ARGUMENT CPython38.dis <= opcode)
  /\ exists labels, find_labels CPython38.dis code_with_jumps = inr labels.
Proof.
  assert (Hrel : forall opcode, opcode ∈ hasjrel CPython38.dis ->
                                HAVE_ARGUMENT CPython38.dis <= opcode).
  { apply Forall_forall. repeat constructor; vm_compute; discriminate. }
  split; [reflexivity|]. split; [exact Hrel|].
  exact (find_labels_returns CPython38.dis code_with_jumps 4 eq_refl Hrel).
Defined.

(** [LOAD_CONST 0] on a unit without constant pool resolves to nothing. *)
Lemma get_argvalue_missing_table_witness :
  py_concat (co_cellvars poolless_unit) (co_freevars poolless_unit)
  = inr (Some [])
  /\ (100 ∈ hasconst CPython38.dis)
  /\ co_consts poolless_unit = None
  /\ get_argvalue CPython38.dis CPython38.repr 0 poolless_unit 100 (Some 0)
     = inr PyNone.
Proof.
  assert (H1 : 100 ∈ hasconst CPython38.dis)
    by (apply (bool_decide_unpack _); exact I).
  split; [reflexivity|]. split; [exact H1|]. split; [reflexivity|].
  exact (proj1 (get_argvalue_missing_table CPython38.dis CPython38.repr 0
                  poolless_unit 100 (Some 0) (Some []) eq_refl)
           H1 eq_refl).
Defined.

(** The run on [failing_unit] prints the line of [LOAD_CONST 0] and ends in
    [IndexError]. *)
Lemma disassemble_listing_first_witness :
  disassemble CPython38.dis CPython38.repr 0 (PyCode failing_unit)
  = ([Text (DisText (Some 1) false 0 "LOAD_CONST" (Some 0) (Some (PyInt 5)))],
     Raised IndexError)
  /\ exists listing rest,
      [Text (DisText (Some 1) false 0 "LOAD_CONST" (Some 0) (Some (PyInt 5)))]
      = listing ++ rest
      /\ Forall (fun e => is_header e = false) listing
      /\ text_offset <$> texts listing
         = take (length (texts listing))
             (range_by_2 (length (co_code failing_unit)))
      /\ (rest = []
          \/ (length (texts listing)
              = length (range_by_2 (length (co_code failing_unit)))
              /\ exists oc rest', rest = Header oc :: rest')).
Proof.
  split; [reflexivity|].
  exact (disassemble_listing_first CPython38.dis CPython38.repr 0 failing_unit
           _ (Raised IndexError) eq_refl).
Defined.
